(** * obspy.fissures.client: a shallow embedding of the DHI/Fissures client

    The development follows [obspy/fissures/client.py].  The client is
    sequential request/response code, so it is modelled in a small
    writer-plus-exception monad: a computation yields the ordered list of
    observable events it emitted (remote calls and warnings) together with
    either a returned value or a raised exception.

    Integers are [Z] and [str] values are [string].  The doubles of the IDL
    structures are carried as the rationals they denote; the float arithmetic
    done on them is the interpreter's and is taken as an interface. *)

From Stdlib Require Import ZArith QArith List String Ascii Bool Lia.
From Stdlib Require Import SpecFloat.
From Stdlib Require Import DecimalString.
Import ListNotations.
Open Scope string_scope.
Open Scope list_scope.
Open Scope Z_scope.

Set Implicit Arguments.

(** ** Python string operations used by the client *)

Module PyStr.

Definition star : ascii := "*"%char.

(** [len(s)] *)
Definition len (s : string) : Z := Z.of_nat (String.length s).

(** [s.find(c)] for a one-character needle: index of the first
    occurrence, [-1] when there is none. *)
Fixpoint find_from (c : ascii) (s : string) (i : Z) : Z :=
  match s with
  | EmptyString => -1
  | String a s' => if Ascii.eqb a c then i else find_from c s' (i + 1)
  end.

Definition find (s : string) (c : ascii) : Z := find_from c s 0.

(** [c in s] for a one-character needle. *)
Fixpoint contains (c : ascii) (s : string) : bool :=
  match s with
  | EmptyString => false
  | String a s' => Ascii.eqb a c || contains c s'
  end.

(** [s[:n]] *)
Definition prefix (n : nat) (s : string) : string := substring 0 n s.

(** [s.replace(c, d)] for one-character [c] and [d]. *)
Fixpoint replace (c d : ascii) (s : string) : string :=
  match s with
  | EmptyString => EmptyString
  | String a s' => String (if Ascii.eqb a c then d else a) (replace c d s')
  end.

(** Python 2 [string.whitespace]: space, TAB, LF, VT, FF, CR. *)
Definition is_space (a : ascii) : bool :=
  let n := N_of_ascii a in
  (N.eqb n 32 || (N.leb 9 n && N.leb n 13))%bool.

Fixpoint lstrip (s : string) : string :=
  match s with
  | EmptyString => EmptyString
  | String a s' => if is_space a then lstrip s' else s
  end.

Fixpoint rstrip (s : string) : string :=
  match s with
  | EmptyString => EmptyString
  | String a s' =>
      match rstrip s' with
      | EmptyString => if is_space a then EmptyString else String a EmptyString
      | r => String a r
      end
  end.

(** A three-character code. *)
Definition code3 (a b c : ascii) : string :=
  String a (String b (String c EmptyString)).

(** [s.strip()] *)
Definition strip (s : string) : string := rstrip (lstrip s).

(** ["%d" % z] *)
Definition of_Z (z : Z) : string := NilZero.string_of_int (Z.to_int z).

(** [a < b] on [str]: lexicographic on character codes. *)
Definition lt (a b : string) : bool := String.ltb a b.

End PyStr.

(** ** Exceptions, events and the client monad *)

Inductive Exn : Type :=
| FissuresException (msg : string)
| NotImplementedError (msg : string)
| ZeroDivisionError
| ValueError (msg : string)
| OverflowError (msg : string)
| AttributeError (msg : string)
| RuntimeError (msg : string)
| NotFoundError (label : string)
| Foreign (what : string).

Inductive Outcome (A : Type) : Type :=
| Return (a : A)
| Raise (e : Exn).

Arguments Return {A} a.
Arguments Raise {A} e.

Section Monad.

Variable Event : Type.

(** Events emitted, in order, and the outcome. *)
Definition M (A : Type) : Type := (list Event * Outcome A)%type.

Definition ret {A} (a : A) : M A := ([], Return a).

Definition raise {A} (e : Exn) : M A := ([], Raise e).

Definition emit (ev : Event) : M unit := ([ev], Return tt).

Definition lift {A} (o : Outcome A) : M A := ([], o).

Definition bind {A B} (m : M A) (f : A -> M B) : M B :=
  match m with
  | (l, Return a) => let (l', o) := f a in (l ++ l', o)
  | (l, Raise e) => (l, Raise e)
  end.

Definition events {A} (m : M A) : list Event := fst m.
Definition outcome {A} (m : M A) : Outcome A := snd m.

Definition fails {A} (m : M A) : Prop := exists e, outcome m = Raise e.

End Monad.

Arguments ret {Event A} a.
Arguments raise {Event A} e.
Arguments lift {Event A} o.
Arguments bind {Event A B} m f.
Arguments events {Event A} m.
Arguments outcome {Event A} m.
Arguments fails {Event A} m.

Declare Scope py_scope.
Delimit Scope py_scope with py.
Notation "x <- m ;; k" := (bind m (fun x => k))
  (at level 61, m at next level, right associativity) : py_scope.
Notation "m ;;; k" := (bind m (fun _ => k))
  (at level 61, right associativity) : py_scope.
Open Scope py_scope.

(** ** Data model: the Fissures IDL structures the client reads *)

(** [Fissures.Time]: the client only reads [date_time]. *)
Record FTime : Type := mkFTime { date_time : string }.

Record TimeRange : Type := mkTimeRange {
  start_time : FTime;
  end_time : FTime
}.

(** [Fissures.Unit]; [the_unit_base] holds [str(the_unit_base)]. *)
Record FUnit : Type := mkFUnit {
  the_unit_base : string;
  power : Z;
  unit_name : string;
  multi_factor : Q;
  exponent : Z
}.

(** [Fissures.Quantity].  The IDL doubles [value] and [multi_factor] are
    kept as the rationals they stand for, a finite double being one; what
    Python computes with is the float [float_of_double] makes of them. *)
Record Quantity : Type := mkQuantity {
  value : Q;
  the_units : FUnit
}.

Record SamplingInfo : Type := mkSamplingInfo { interval : Quantity }.

Record NetworkId : Type := mkNetworkId { network_code : string }.

Record StationId : Type := mkStationId {
  sta_network_id : NetworkId;
  station_code : string
}.

Record ChannelId : Type := mkChannelId {
  network_id : NetworkId;
  cha_station_code : string;
  site_code : string;
  channel_code : string
}.

(** One encoded data chunk of a seismogram ([EncodedData]). *)
Record EncodedData : Type := mkEncodedData {
  compression : Z;
  byte_order : bool;
  values : list Z;
  chunk_num_points : Z
}.

(** One seismogram (segment) as returned by [retrieve_seismograms];
    [encoded_values] stands for [sei.data.encoded_values]. *)
Record Seismogram : Type := mkSeismogram {
  num_points : Z;
  begin_time : FTime;
  sampling_info : SamplingInfo;
  channel_id : ChannelId;
  encoded_values : list EncodedData
}.

Record Location : Type := mkLocation {
  latitude : Q;
  longitude : Q;
  elevation : Quantity;
  loc_type : string
}.

Record Station : Type := mkStation {
  sta_id : StationId;
  effective_time : TimeRange;
  my_location : Location
}.

Record Channel : Type := mkChannel { cha_id : ChannelId }.

Record Normalization : Type := mkNormalization {
  ao_normalization_factor : Q
}.

(** A tagged filter union: [_d] holds [str(filter._d)], [_v] the value. *)
Record Filter (PZ : Type) : Type := mkFilter {
  _d : string;
  _v : PZ
}.

Record Stage (PZ : Type) : Type := mkStage {
  filters : list (Filter PZ);
  the_normalization : list Normalization
}.

Record Sensitivity : Type := mkSensitivity { sensitivity_factor : Q }.

Record Response (PZ : Type) : Type := mkResponse {
  stages : list (Stage PZ);
  the_sensitivity : Sensitivity
}.

Record Instrumentation (PZ : Type) : Type := mkInstrumentation {
  the_response : Response PZ
}.

Record RequestFilter : Type := mkRequestFilter {
  rf_channel_id : ChannelId;
  rf_start_time : FTime;
  rf_end_time : FTime
}.

(** Observable events: calls on remote objects and [warnings.warn]. *)
Inductive Event : Type :=
| ev_retrieve_by_code (code : string)
| ev_retrieve_stations (net : string)
| ev_retrieve_for_station (net : string) (sta : StationId)
| ev_retrieve_channels_by_code (net : string) (sta loc cha : string)
| ev_retrieve_instrumentation (net : string) (cha : ChannelId) (t : FTime)
| ev_retrieve_seismograms (request : list RequestFilter)
| ev_warn (category msg : string).

(** A remote network-access object: what each of its methods answers.
    [net_label] only names the object in the event log. *)
Record NetworkAccess (PZ : Type) : Type := mkNetworkAccess {
  net_label : string;
  net_retrieve_stations : Outcome (list Station);
  net_retrieve_for_station : StationId -> Outcome (list Channel);
  net_retrieve_channels_by_code :
    string -> string -> string -> Outcome (list Channel);
  net_retrieve_instrumentation :
    ChannelId -> FTime -> Outcome (Instrumentation PZ)
}.

Record NetworkFinder (PZ : Type) : Type := mkNetworkFinder {
  nf_retrieve_by_code : string -> Outcome (list (NetworkAccess PZ))
}.

Record DataCenter : Type := mkDataCenter {
  dc_retrieve_seismograms : list RequestFilter -> Outcome (list Seismogram)
}.

(** ** Results: ObsPy traces and the metadata dictionaries *)

Record PAZ : Type := mkPAZ {
  poles : list (Q * Q);
  zeros : list (Q * Q);
  gain : option Q;
  sensitivity : option Q
}.

Record Coordinates : Type := mkCoordinates {
  c_elevation : Q;
  c_latitude : Q;
  c_longitude : Q
}.

Record Stats (T R : Type) : Type := mkStats {
  starttime : T;
  npts : Z;
  sampling_rate : R;
  station : string;
  network : string;
  channel : string;
  location : string;
  paz : option PAZ;
  coordinates : option Coordinates
}.

Record Trace (T R : Type) : Type := mkTrace {
  stats : Stats T R;
  data : list Z
}.

Definition Stream (T R : Type) : Type := list (Trace T R).

Definition set_paz {T R} (p : PAZ) (tr : Trace T R) : Trace T R :=
  let s := stats tr in
  mkTrace (mkStats (starttime s) (npts s) (sampling_rate s) (station s)
             (network s) (channel s) (location s) (Some p) (coordinates s))
          (data tr).

Definition set_coordinates {T R} (c : Coordinates) (tr : Trace T R)
  : Trace T R :=
  let s := stats tr in
  mkTrace (mkStats (starttime s) (npts s) (sampling_rate s) (station s)
             (network s) (channel s) (location s) (paz s) (Some c))
          (data tr).

(** [copy.deepcopy]: values of the model are immutable, so a deep copy is
    the value itself. *)
Definition deepcopy {A} (a : A) : A := a.

(** ** Collaborators outside this file

    [obspy.core] ([UTCDateTime], [Trace.verify], [Stream.trim]),
    [obspy.mseed] (the two Steim decoders), two helpers of
    [obspy.fissures.util] and the interpreter's float arithmetic are taken
    as an interface.  A float operation answers with a float or raises
    (OverflowError, ZeroDivisionError, ValueError), as the interpreter
    does. *)

Class Collaborators : Type := mkCollaborators {
  UTCDateTime : Type;
  PoleZeroFilter : Type;
  (** [UTCDateTime(s)] *)
  UTCDateTime_of : string -> UTCDateTime;
  (** [UTCDateTime(t).formatFissures()] *)
  formatFissures : UTCDateTime -> string;
  utcdatetime2Fissures : UTCDateTime -> FTime;
  (** Python floats *)
  pyfloat : Type;
  (** the float unmarshalled from an IDL double *)
  float_of_double : Q -> pyfloat;
  (** the float operand made of an int or long *)
  float_of_int : Z -> Outcome pyfloat;
  (** [a * b] on floats *)
  float_mul : pyfloat -> pyfloat -> pyfloat;
  (** [pow(a, b)] on floats *)
  float_pow : pyfloat -> pyfloat -> Outcome pyfloat;
  (** [a / b] on floats *)
  float_div : pyfloat -> pyfloat -> Outcome pyfloat;
  unpack_steim1 : list Z -> Z -> bool -> Outcome (list Z);
  unpack_steim2 : list Z -> Z -> bool -> Outcome (list Z);
  Trace_verify : Trace UTCDateTime pyfloat -> Outcome unit;
  Stream_trim :
    Stream UTCDateTime pyfloat -> UTCDateTime -> UTCDateTime ->
    Outcome (Stream UTCDateTime pyfloat);
  poleZeroFilter2PAZ : PoleZeroFilter -> Outcome PAZ
}.

(** ** Helpers *)

(** A call on a remote object: logged, then answered by the object. *)
Definition call {A} (ev : Event) (answer : Outcome A) : M Event A :=
  emit ev ;;; lift answer.

(** [warnings.warn(msg, FissuresWarning)] *)
Definition warn_fissures (msg : string) : M Event unit :=
  emit (ev_warn "FissuresWarning" msg).

(** [warnings.warn(msg)] *)
Definition warn_user (msg : string) : M Event unit :=
  emit (ev_warn "UserWarning" msg).

(** Modelled from the spec: [use_first_and_raise_or_warn] of
    [obspy.fissures.util], which the client imports and whose body is not
    part of the source tree.  The spec gives it as the first-or-warn-or-raise
    rule: an empty candidate list fails with NotFoundError, more than one
    candidate emits a warning and proceeds with the first element, and the
    label only describes the kind of object in the messages. *)
Definition use_first_and_raise_or_warn {A} (list_ : list A) (type_str : string)
  : M Event A :=
  match list_ with
  | [] => raise (NotFoundError type_str)
  | [x] => ret x
  | x :: _ :: _ => warn_fissures type_str ;;; ret x
  end.

(** ** Python arithmetic used for the sampling rate

    Lines 206-212 mix ints and floats.  The float operations are the
    interpreter's; written out here is how Python 2 combines them: an int
    raised to a negative int is computed on floats, and an int operand of a
    float operation is converted to a float first. *)

Definition and_then {A B} (o : Outcome A) (f : A -> Outcome B) : Outcome B :=
  match o with
  | Return a => f a
  | Raise e => Raise e
  end.

(** A number: an int (or long), or a float. *)
Inductive PyNum (F : Type) : Type :=
| py_int (z : Z)
| py_float (f : F).

Arguments py_int {F} z.
Arguments py_float {F} f.

(** The float operand made of a number. *)
Definition to_float {L : Collaborators} (x : PyNum pyfloat) : Outcome pyfloat :=
  match x with
  | py_int z => float_of_int z
  | py_float f => Return f
  end.

(** [pow(a, b)] on two ints: an int for [b >= 0], the float power of the
    two converted operands for [b < 0]. *)
Definition int_pow {L : Collaborators} (a b : Z) : Outcome (PyNum pyfloat) :=
  if b <? 0 then
    and_then (float_of_int a) (fun fa =>
    and_then (float_of_int b) (fun fb =>
    and_then (float_pow fa fb) (fun r => Return (py_float r))))
  else Return (py_int (a ^ b)).

(** [np.concatenate(arrays)]: numpy refuses an empty list of arrays. *)
Definition np_concatenate (arrays : list (list Z)) : Outcome (list Z) :=
  match arrays with
  | [] => Raise (ValueError "need at least one array to concatenate")
  | _ => Return (List.concat arrays)
  end.

(** Lines 206-212 of [getWaveform]: the sampling rate of one seismogram,
    [num_points / float(pow(value * pow(10, power) * multi_factor,
    exponent))]. *)
Definition calc_sampling_rate {L : Collaborators} (sei : Seismogram)
  : Outcome pyfloat :=
  let value := float_of_double (value (interval (sampling_info sei))) in
  let power := power (the_units (interval (sampling_info sei))) in
  let multi_factor :=
    float_of_double (multi_factor (the_units (interval (sampling_info sei)))) in
  let exponent := exponent (the_units (interval (sampling_info sei))) in
  and_then (int_pow 10 power) (fun p10 =>
  and_then (to_float p10) (fun p10 =>
  let x := float_mul (float_mul value p10) multi_factor in
  and_then (float_of_int exponent) (fun exponent =>
  and_then (float_pow x exponent) (fun delta =>
  and_then (float_of_int (num_points sei)) (fun n =>
  float_div n delta))))).

(** The double quote and the line feed, for the messages that hold them. *)
Definition dq : string := String (ascii_of_nat 34) EmptyString.
Definition nl : string := String (ascii_of_nat 10) EmptyString.

(** ** The client *)

Section ClientMethods.

Context {L : Collaborators}.

(** A constructed client with both service handles resolved. *)
Record Client : Type := mkClient {
  byteorder : bool;
  netFind : NetworkFinder PoleZeroFilter;
  seisDC : DataCenter
}.

(** *** [_getChannelObj]

    Narrowing the network to [ConcreteNetworkAccess] keeps the object. *)
Definition _getChannelObj (self : Client)
  (network_id station_id location_id channel_id : string)
  : M Event (list Channel) :=
  net <- call (ev_retrieve_by_code network_id)
              (nf_retrieve_by_code (netFind self) network_id) ;;
  net <- use_first_and_raise_or_warn net "network" ;;
  let location_id :=
    if String.eqb (PyStr.strip location_id) EmptyString
    then "  " else location_id in
  call (ev_retrieve_channels_by_code (net_label net)
          station_id location_id channel_id)
       (net_retrieve_channels_by_code net station_id location_id channel_id).

(** *** [_getSeisObj] *)
Definition _getSeisObj (self : Client) (channel_obj : list Channel)
  (start_datetime end_datetime : UTCDateTime) : M Event (list Seismogram) :=
  let t1 := utcdatetime2Fissures start_datetime in
  let t2 := utcdatetime2Fissures end_datetime in
  let request := map (fun c => mkRequestFilter (cha_id c) t1 t2) channel_obj in
  call (ev_retrieve_seismograms request)
       (dc_retrieve_seismograms (seisDC self) request).

(** The list comprehension of [_getStationObj]: the stations kept. *)
Definition station_matches (station_id datetime : string) (sta : Station)
  : bool :=
  String.eqb station_id (station_code (sta_id sta))
  && PyStr.lt (date_time (start_time (effective_time sta))) datetime
  && PyStr.lt datetime (date_time (end_time (effective_time sta))).

(** *** [_getStationObj] *)
Definition _getStationObj (self : Client) (network_id station_id : string)
  (datetime : UTCDateTime) : M Event Station :=
  net <- call (ev_retrieve_by_code network_id)
              (nf_retrieve_by_code (netFind self) network_id) ;;
  net <- use_first_and_raise_or_warn net "network" ;;
  let datetime := formatFissures datetime in
  all <- call (ev_retrieve_stations (net_label net))
              (net_retrieve_stations net) ;;
  let stations := filter (station_matches station_id datetime) all in
  use_first_and_raise_or_warn stations "station".

(** *** [getCoordinates] *)
Definition getCoordinates (self : Client) (network_id station_id : string)
  (datetime : UTCDateTime) : M Event Coordinates :=
  sta <- _getStationObj self network_id station_id datetime ;;
  let loc := my_location sta in
  let elev := value (elevation loc) in
  let unit := unit_name (the_units (elevation loc)) in
  (if negb (String.eqb unit "METER")
   then warn_user (append "Elevation not meter but " (append unit "."))
   else ret tt) ;;;
  let type := loc_type loc in
  if negb (String.eqb type "GEOGRAPHIC") then
    raise (NotImplementedError
      (append "Location types != " (append dq (append "GEOGRAPHIC"
      (append dq (append " are not yet implemented (type: "
      (append dq (append type (append dq (append ")." (append nl
       "Please report the code that resulted in this error!")))))))))))
  else ret (mkCoordinates elev (latitude loc) (longitude loc)).

(** The default of [getPAZ]'s [channel_id] parameter. *)
Definition getPAZ_default_channel_id : string := "BHZ".

(** *** [getPAZ] *)
Definition getPAZ (self : Client) (network_id station_id channel_id : string)
  (datetime : UTCDateTime) : M Event PAZ :=
  if PyStr.contains PyStr.star channel_id then
    raise (FissuresException "Wildcards not allowed in channel_id")
  else
    net <- call (ev_retrieve_by_code network_id)
                (nf_retrieve_by_code (netFind self) network_id) ;;
    net <- use_first_and_raise_or_warn net "network" ;;
    all <- call (ev_retrieve_stations (net_label net))
                (net_retrieve_stations net) ;;
    sta <- use_first_and_raise_or_warn
             (filter (fun sta => String.eqb (station_code (sta_id sta))
                                            station_id) all)
             "station" ;;
    chas <- call (ev_retrieve_for_station (net_label net) (sta_id sta))
                 (net_retrieve_for_station net (sta_id sta)) ;;
    cha <- use_first_and_raise_or_warn
             (filter (fun cha => String.eqb (channel_code (cha_id cha))
                                            channel_id) chas)
             "channel" ;;
    let datetime := utcdatetime2Fissures datetime in
    inst <- call (ev_retrieve_instrumentation (net_label net) (cha_id cha)
                    datetime)
                 (net_retrieve_instrumentation net (cha_id cha) datetime) ;;
    let resp := the_response inst in
    stage <- use_first_and_raise_or_warn (stages resp) "response stage" ;;
    let filters :=
      map (@_v _) (filter (fun f => String.eqb (_d f) "POLEZERO")
                          (filters stage)) in
    flt <- use_first_and_raise_or_warn filters "polezerofilter" ;;
    paz <- lift (poleZeroFilter2PAZ flt) ;;
    norm <- use_first_and_raise_or_warn (the_normalization stage)
              "normalization" ;;
    let norm_fac := ao_normalization_factor norm in
    ret (mkPAZ (poles paz) (zeros paz) (Some norm_fac)
               (Some (sensitivity_factor (the_sensitivity resp)))).

(** *** [getWaveform]: decoding one chunk (lines 222-238) *)
Definition decode_chunk (self : Client) (chunk : EncodedData)
  : Outcome (list Z) :=
  let swapflag := negb (Bool.eqb (byteorder self) (byte_order chunk)) in
  let compression := compression chunk in
  if compression =? 11 then
    unpack_steim2 (values chunk) (chunk_num_points chunk) swapflag
  else if compression =? 10 then
    unpack_steim1 (values chunk) (chunk_num_points chunk) swapflag
  else
    Raise (NotImplementedError
      (append "Compression " (append (PyStr.of_Z compression)
                                      " not implemented"))).

(** The loop over the data chunks of one seismogram. *)
Fixpoint decode_chunks (self : Client) (chunks : list EncodedData)
  (data : list (list Z)) : Outcome (list (list Z)) :=
  match chunks with
  | [] => Return data
  | chunk :: rest =>
      match decode_chunk self chunk with
      | Raise e => Raise e
      | Return d => decode_chunks self rest (data ++ [d])
      end
  end.

(** The body of the loop over the seismograms for one that is not a
    keep-alive (lines 199-241): the trace built from it. *)
Definition make_trace (self : Client) (sei : Seismogram)
  : M Event (Trace UTCDateTime pyfloat) :=
  let starttime := UTCDateTime_of (date_time (begin_time sei)) in
  let npts := num_points sei in
  let unit := the_unit_base (the_units (interval (sampling_info sei))) in
  if negb (String.eqb unit "SECOND") then
    raise (FissuresException "Wrong unit!")
  else
    sr <- lift (calc_sampling_rate sei) ;;
    let station := cha_station_code (channel_id sei) in
    let network := network_code (network_id (channel_id sei)) in
    let channel := channel_code (channel_id sei) in
    let location := PyStr.strip (site_code (channel_id sei)) in
    data <- lift (decode_chunks self (encoded_values sei) []) ;;
    data <- lift (np_concatenate data) ;;
    let tr := mkTrace (mkStats starttime npts sr station network channel
                         location None None) data in
    lift (Trace_verify tr) ;;;
    ret tr.

(** The seismograms that are not keep-alives (line 197). *)
Definition non_empty (sei : Seismogram) : bool := negb (num_points sei =? 0).

(** The loop over the seismograms (lines 195-243). *)
Fixpoint build_stream (self : Client) (seis : list Seismogram)
  (st : Stream UTCDateTime pyfloat) : M Event (Stream UTCDateTime pyfloat) :=
  match seis with
  | [] => ret st
  | sei :: rest =>
      if num_points sei =? 0 then build_stream self rest st
      else
        tr <- make_trace self sei ;;
        build_stream self rest (st ++ [tr])
  end.

(** The condition that intercepts a component wildcard (line 178). *)
Definition component_wildcard (channel_id : string) : bool :=
  (PyStr.len channel_id =? 3) && (PyStr.find channel_id PyStr.star =? 2).

(** The channel codes the generator of line 180 yields. *)
Definition expanded_channels (channel_id : string) : list string :=
  map (fun comp => append (PyStr.prefix 2 channel_id) comp) ["Z"; "N"; "E"].

(** The channel codes a call issues requests for. *)
Definition requested_channels (channel_id : string) : list string :=
  if component_wildcard channel_id then expanded_channels channel_id
  else [channel_id].

(** Lines 187-267: the call for a channel code that is not intercepted. *)
Definition getWaveform_direct (self : Client)
  (network_id station_id location_id channel_id : string)
  (start_datetime end_datetime : UTCDateTime) (getPAZ_ getCoordinates_ : bool)
  : M Event (Stream UTCDateTime pyfloat) :=
  channels <- _getChannelObj self network_id station_id location_id
                channel_id ;;
  seis <- _getSeisObj self channels start_datetime end_datetime ;;
  st <- build_stream self seis [] ;;
  st <- lift (Stream_trim st start_datetime end_datetime) ;;
  st <- (if getPAZ_ then
           (if PyStr.contains PyStr.star channel_id then
              if PyStr.len channel_id <? 3 then
                raise (FissuresException
                         "Cannot fetch PAZ with wildcarded band codes.")
              else
                warn_fissures (append "Wildcard in channel_id, trying to look up Z "
                                      "components PAZ information")
            else ret tt) ;;;
           data <- getPAZ self network_id station_id
                     getPAZ_default_channel_id start_datetime ;;
           ret (map (set_paz (deepcopy data)) st)
         else ret st) ;;
  st <- (if getCoordinates_ then
           data <- getCoordinates self network_id station_id start_datetime ;;
           ret (map (set_coordinates (deepcopy data)) st)
         else ret st) ;;
  ret st.

(** The loop of lines 179-185 over the expanded channel codes, given the
    request to issue for each. *)
Fixpoint expand_loop (request : string -> M Event (Stream UTCDateTime pyfloat))
  (chas : list string) (st : Stream UTCDateTime pyfloat)
  : M Event (Stream UTCDateTime pyfloat) :=
  match chas with
  | [] => ret st
  | cha :: rest =>
      r <- request cha ;;
      expand_loop request rest (st ++ r)
  end.

(** *** [getWaveform]

    The method calls itself for the expanded channel codes, passing on its
    other arguments as it received them ([kwargs] holds every parameter but
    [self], and [channel_id] is replaced); [depth] bounds the nesting of
    these calls, as the interpreter's recursion limit does. *)
Fixpoint getWaveform_rec (depth : nat) (self : Client)
  (network_id station_id location_id channel_id : string)
  (start_datetime end_datetime : UTCDateTime) (getPAZ_ getCoordinates_ : bool)
  : M Event (Stream UTCDateTime pyfloat) :=
  match depth with
  | O => raise (RuntimeError "maximum recursion depth exceeded")
  | S depth' =>
      if component_wildcard channel_id then
        expand_loop
          (fun cha => getWaveform_rec depth' self network_id station_id
                        location_id cha start_datetime end_datetime
                        getPAZ_ getCoordinates_)
          (expanded_channels channel_id) []
      else
        getWaveform_direct self network_id station_id location_id channel_id
          start_datetime end_datetime getPAZ_ getCoordinates_
  end.

(** The nesting never exceeds two levels (see [getWaveform_rec_depth]). *)
Definition getWaveform : Client -> string -> string -> string -> string ->
  UTCDateTime -> UTCDateTime -> bool -> bool -> M Event (Stream UTCDateTime pyfloat) :=
  getWaveform_rec 2.

End ClientMethods.

(** ** Construction: [Client.__init__] *)

Section Construction.

Context {L : Collaborators}.

(** An instance attribute: never assigned, or assigned a value, where
    [None] is Python's [None] (what [_narrow] answers for an object of
    another interface). *)
Inductive Attr (A : Type) : Type :=
| attr_unset
| attr_set (v : option A).

Arguments attr_unset {A}.
Arguments attr_set {A} v.

(** What the naming service answers during construction: whether
    narrowing the root context raises, and for each of the two [try]
    blocks the value its last statement assigns, or the exception raised
    inside it. *)
Record NameService : Type := mkNameService {
  narrow_root : Outcome unit;
  resolve_netFind : Outcome (option (NetworkFinder PoleZeroFilter));
  resolve_seisDC : Outcome (option DataCenter)
}.

(** The attributes of the instance under construction. *)
Record ClientObject : Type := mkClientObject {
  obj_byteorder : bool;
  obj_netFind : Attr (NetworkFinder PoleZeroFilter);
  obj_seisDC : Attr DataCenter
}.

(** [not self.<name>]: reading an attribute that was never assigned
    raises; a remote object reference is true. *)
Definition not_attr {A} (name : string) (a : Attr A) : M Event bool :=
  match a with
  | attr_unset =>
      raise (AttributeError
               (append "'Client' object has no attribute '"
                       (append name "'")))
  | attr_set None => ret true
  | attr_set (Some _) => ret false
  end.

(** One [try: self.x = ... except: warnings.warn(msg, FissuresWarning)]. *)
Definition try_resolve {A} (body : Outcome (option A)) (msg : string)
  : M Event (Attr A) :=
  match body with
  | Return v => ret (attr_set v)
  | Raise _ => warn_fissures msg ;;; ret attr_unset
  end.

Definition __init__ (sys_byteorder name_service : string) (ns : NameService)
  : M Event ClientObject :=
  let byteorder := String.eqb sys_byteorder "little" in
  match narrow_root ns with
  | Raise _ =>
      raise (FissuresException (append "Could not connect to " name_service))
  | Return _ =>
      nf <- try_resolve (resolve_netFind ns)
              "Initialization of NetworkFinder failed." ;;
      dc <- try_resolve (resolve_seisDC ns)
              "Initialization of seismogram DataCenter failed." ;;
      no_nf <- not_attr "netFind" nf ;;
      both <- (if no_nf then not_attr "seisDC" dc else ret false) ;;
      if both then
        raise (FissuresException
                 "Neither NetworkFinder nor DataCenter could be initialized.")
      else ret (mkClientObject byteorder nf dc)
  end.

End Construction.

Arguments attr_unset {A}.
Arguments attr_set {A} v.

(** ** Names in the naming service: [_composeName] *)

Record NameComponent : Type := mkNameComponent {
  nc_id : string;
  nc_kind : string
}.

(** [s.split(sep)] for a one-character separator: the pieces between the
    separators, empty pieces included. *)
Fixpoint py_split (sep : ascii) (s : string) : list string :=
  match s with
  | EmptyString => [EmptyString]
  | String a s' =>
      if Ascii.eqb a sep then EmptyString :: py_split sep s'
      else
        match py_split sep s' with
        | [] => [String a EmptyString]
        | w :: ws => String a w :: ws
        end
  end.

(** The loop of lines 422-424: one [dns] component for each piece that is
    not empty. *)
Fixpoint compose_dns (ids : list string) (dns : list NameComponent)
  : list NameComponent :=
  match ids with
  | [] => dns
  | id :: rest =>
      if negb (String.eqb id EmptyString)
      then compose_dns rest (dns ++ [mkNameComponent id "dns"])
      else compose_dns rest dns
  end.

Definition _composeName (dc : string * string) (interface : string)
  : list NameComponent :=
  let dns := [mkNameComponent "Fissures" "dns"] in
  let dns := compose_dns (py_split "/" (fst dc)) dns in
  dns ++ [mkNameComponent interface "interface";
          mkNameComponent (snd dc) "object_FVer1.0"].

(** ** Listing networks and stations: [getNetworkIds], [getStationIds] *)

(** What [get_attributes] answers: the client reads [id]. *)
Record NetworkAttr : Type := mkNetworkAttr { attr_id : NetworkId }.

(** The events of the two listing methods: those of the other methods and
    the two calls only the listings make. *)
Inductive CatalogEvent : Type :=
| ce_event (e : Event)
| ce_retrieve_all
| ce_get_attributes (net : string).

Section Catalog.

Context {L : Collaborators}.

(** The part of the remote world only the listings reach: what the finder
    answers to [retrieve_all] and each network to [get_attributes]. *)
Record Catalog : Type := mkCatalog {
  cat_retrieve_all : Outcome (list (NetworkAccess PoleZeroFilter));
  cat_get_attributes : NetworkAccess PoleZeroFilter -> Outcome NetworkAttr
}.

(** The loop of [getNetworkIds] (lines 279-282). *)
Fixpoint network_loop (cat : Catalog)
  (networks : list (NetworkAccess PoleZeroFilter)) (net_list : list string)
  : M CatalogEvent (list string) :=
  match networks with
  | [] => ret net_list
  | network :: rest =>
      attributes <- (emit (ce_get_attributes (net_label network)) ;;;
                     lift (cat_get_attributes cat network)) ;;
      network_loop cat rest
        (net_list ++ [network_code (attr_id attributes)])
  end.

(** *** [getNetworkIds] *)
Definition getNetworkIds (self : Client) (cat : Catalog)
  : M CatalogEvent (list string) :=
  networks <- (emit ce_retrieve_all ;;; lift (cat_retrieve_all cat)) ;;
  network_loop cat networks [].

(** The loops of [getStationIds] (lines 300-304). *)
Fixpoint station_loop (networks : list (NetworkAccess PoleZeroFilter))
  (station_list : list string) : M CatalogEvent (list string) :=
  match networks with
  | [] => ret station_list
  | network :: rest =>
      stations <- (emit (ce_event (ev_retrieve_stations (net_label network))) ;;;
                   lift (net_retrieve_stations network)) ;;
      station_loop rest
        (station_list ++ map (fun sta => station_code (sta_id sta)) stations)
  end.

(** *** [getStationIds]; [None] is the default of [network_id]. *)
Definition getStationIds (self : Client) (cat : Catalog)
  (network_id : option string) : M CatalogEvent (list string) :=
  networks <- match network_id with
              | None => emit ce_retrieve_all ;;; lift (cat_retrieve_all cat)
              | Some code =>
                  emit (ce_event (ev_retrieve_by_code code)) ;;;
                  lift (nf_retrieve_by_code (netFind self) code)
              end ;;
  station_loop networks [].

End Catalog.

(** ** Predicates used to state what the methods do *)

(** The characters [strip] removes are all a string holds. *)
Fixpoint all_space (s : string) : bool :=
  match s with
  | EmptyString => true
  | String a s' => PyStr.is_space a && all_space s'
  end.

(** The warning of a selection among several candidates: emitted when
    candidates are left beside the first. *)
Definition ambiguity {A} (rest : list A) (type_str : string) : list Event :=
  match rest with
  | [] => []
  | _ :: _ => [ev_warn "FissuresWarning" type_str]
  end.

(** The events of retrieving waveforms: the three remote calls of
    [_getChannelObj] and [_getSeisObj], and the warning on several
    networks. *)
Definition retrieval_event (ev : Event) : bool :=
  match ev with
  | ev_retrieve_by_code _ => true
  | ev_retrieve_channels_by_code _ _ _ _ => true
  | ev_retrieve_seismograms _ => true
  | ev_warn category msg =>
      String.eqb category "FissuresWarning" && String.eqb msg "network"
  | _ => false
  end.

(** ** A concrete setting for evaluating the client

    Collaborators of the simplest kind (instants are their Fissures
    strings, the decoders hand back the chunk's values, verification
    compares the declared and the produced length, trimming keeps
    everything) and a small remote world with one network, ["GE"].  Floats
    are IEEE 754 binary64 numbers, with round-to-nearest-even conversion,
    multiplication and division, and a power that is correctly rounded for
    exponents that are integers. *)

Module Fixture.

Definition b64_of_Z (z : Z) : spec_float := binary_normalize 53 1024 z 0 false.

Definition is_inf (x : spec_float) : bool :=
  match x with
  | S754_infinity _ => true
  | _ => false
  end.

Definition is_zero (x : spec_float) : bool :=
  match x with
  | S754_zero _ => true
  | _ => false
  end.

(** The nearest float of a rational with numerator and denominator below
    2^53. *)
Definition b64_of_double (q : Q) : spec_float :=
  SFdiv 53 1024 (b64_of_Z (Qnum q)) (b64_of_Z (Zpos (Qden q))).

Definition b64_of_int (z : Z) : Outcome spec_float :=
  if is_inf (b64_of_Z z)
  then Raise (OverflowError "long int too large to convert to float")
  else Return (b64_of_Z z).

Definition b64_div (a b : spec_float) : Outcome spec_float :=
  if is_zero b then Raise ZeroDivisionError else Return (SFdiv 53 1024 a b).

(** The integer a float is, if it is one. *)
Definition b64_to_Z (y : spec_float) : option Z :=
  match y with
  | S754_zero _ => Some 0
  | S754_finite s m e =>
      if 0 <=? e then Some (if s then - (Zpos m * 2 ^ e) else Zpos m * 2 ^ e)
      else if Zpos m mod 2 ^ (- e) =? 0
           then Some (if s then - (Zpos m / 2 ^ (- e)) else Zpos m / 2 ^ (- e))
           else None
  | _ => None
  end.

Definition b64_pow (x y : spec_float) : Outcome spec_float :=
  match b64_to_Z y with
  | None => Raise (Foreign "power with an exponent that is not an integer")
  | Some Z0 => Return (b64_of_Z 1)
  | Some n =>
      match x with
      | S754_zero s =>
          if n <? 0 then Raise ZeroDivisionError
          else Return (S754_zero (s && Z.odd n))
      | S754_finite s m e =>
          let k := Z.to_pos (Z.abs n) in
          let sign := s && Z.odd n in
          let r := if n <? 0
                   then SFdiv 53 1024 (b64_of_Z 1)
                          (S754_finite sign (Pos.pow m k) (e * Zpos k))
                   else binary_round 53 1024 sign (Pos.pow m k) (e * Zpos k) in
          if is_inf r
          then Raise (OverflowError "(34, 'Numerical result out of range')")
          else Return r
      | _ => Return x
      end
  end.

Definition verify_length (tr : Trace string spec_float) : Outcome unit :=
  if Z.of_nat (List.length (data tr)) =? npts (stats tr) then Return tt
  else Raise (Foreign "npts differs from data size").

Definition toy : Collaborators :=
  {| UTCDateTime := string;
     PoleZeroFilter := PAZ;
     UTCDateTime_of := fun s => s;
     formatFissures := fun t => t;
     utcdatetime2Fissures := fun t => mkFTime t;
     pyfloat := spec_float;
     float_of_double := b64_of_double;
     float_of_int := b64_of_int;
     float_mul := SFmul 53 1024;
     float_pow := b64_pow;
     float_div := b64_div;
     unpack_steim1 := fun vals _ _ => Return vals;
     unpack_steim2 := fun vals _ _ => Return vals;
     Trace_verify := verify_length;
     Stream_trim := fun st _ _ => Return st;
     poleZeroFilter2PAZ := fun p => Return p |}.

Definition GE : NetworkId := mkNetworkId "GE".

Definition cha (code : string) : ChannelId := mkChannelId GE "APE" "  " code.

Definition seconds (power exponent : Z) : FUnit :=
  mkFUnit "SECOND" power "SECOND" 1 exponent.

Definition meters : FUnit := mkFUnit "METER" 0 "METER" 1 1.

Definition t0 : string := "2003-06-20T06:00:00.0000Z".
Definition t1 : string := "2003-06-20T06:10:00.0000Z".

(** A seismogram of channel [code] with the given sample count, interval
    unit and chunks. *)
Definition seismogram (code : string) (n : Z) (u : FUnit)
  (chunks : list EncodedData) : Seismogram :=
  mkSeismogram n (mkFTime t0) (mkSamplingInfo (mkQuantity 1 u)) (cha code)
    chunks.

Definition steim2 (vals : list Z) : EncodedData :=
  mkEncodedData 11 false vals (Z.of_nat (List.length vals)).

Definition steim1 (vals : list Z) : EncodedData :=
  mkEncodedData 10 false vals (Z.of_nat (List.length vals)).


Definition sei_ok : Seismogram :=
  seismogram "SHZ" 3 (seconds 0 1) [steim2 [1; 2]; steim1 [3]].

Definition sei_ok' : Seismogram :=
  seismogram "SHZ" 2 (seconds 0 1) [steim1 [4; 5]].

Definition sei_keep_alive : Seismogram :=
  seismogram "SHZ" 0 (seconds 0 1) [mkEncodedData 99 false [] 0].

Definition sei_bad_tag : Seismogram :=
  seismogram "SHZ" 2 (seconds 0 1) [mkEncodedData 99 false [1; 2] 2].

Definition sei_empty_chunk_bad_tag : Seismogram :=
  seismogram "SHZ" 2 (seconds 0 1)
    [steim2 [1; 2]; mkEncodedData 99 false [] 0].

Definition sei_bad_unit : Seismogram :=
  seismogram "SHZ" 2 meters [steim2 [1; 2]].


Definition a_station (code start stop : string) : Station :=
  mkStation (mkStationId GE code)
    (mkTimeRange (mkFTime start) (mkFTime stop))
    (mkLocation (49 # 1) (11 # 1) (mkQuantity (499 # 1) meters) "GEOGRAPHIC").

Definition APE_old : Station :=
  a_station "APE" "1990-01-01T00:00:00.0000Z" "2003-06-20T06:00:00.0000Z".
Definition APE_now : Station :=
  a_station "APE" "2003-01-01T00:00:00.0000Z" "2599-12-31T23:59:59.0000Z".
Definition APE_dup : Station :=
  a_station "APE" "2003-02-01T00:00:00.0000Z" "2599-12-31T23:59:59.0000Z".
Definition KARP : Station :=
  a_station "KARP" "2003-01-01T00:00:00.0000Z" "2599-12-31T23:59:59.0000Z".

Definition paz0 : PAZ := mkPAZ [(-1 # 1, 1 # 1)%Q] [(0 # 1, 0 # 1)%Q] None None.

Definition instrumentation : Instrumentation PAZ :=
  mkInstrumentation
    (mkResponse
       [mkStage [mkFilter "POLEZERO" paz0] [mkNormalization (6 # 1)]]
       (mkSensitivity (5 # 1))).

Definition net_GE : NetworkAccess PAZ :=
  {| net_label := "GE";
     net_retrieve_stations := Return [APE_old; APE_now; KARP; APE_dup];
     net_retrieve_for_station := fun _ =>
       Return [mkChannel (cha "BHZ"); mkChannel (cha "SHZ")];
     net_retrieve_channels_by_code := fun _ _ code =>
       Return [mkChannel (cha code)];
     net_retrieve_instrumentation := fun _ _ => Return instrumentation |}.

Definition finder : NetworkFinder PAZ :=
  mkNetworkFinder (fun code =>
    if String.eqb code "GE" then Return [net_GE] else Return []).

(** A client (little-endian host) whose data center answers every request
    with [seis]. *)
Definition client (seis : list Seismogram) : @Client toy :=
  @mkClient toy true finder (mkDataCenter (fun _ => Return seis)).

Definition catalog : @Catalog toy :=
  @mkCatalog toy (Return [net_GE])
    (fun net => Return (mkNetworkAttr (mkNetworkId (net_label net)))).

Definition APE_cartesian : Station :=
  mkStation (mkStationId GE "APE")
    (mkTimeRange (mkFTime "2003-01-01T00:00:00.0000Z")
                 (mkFTime "2599-12-31T23:59:59.0000Z"))
    (mkLocation (49 # 1) (11 # 1) (mkQuantity (1640 # 1)
                  (mkFUnit "METER" 0 "FOOT" 1 1)) "CARTESIAN").

Definition APE_feet : Station :=
  mkStation (mkStationId GE "APE")
    (mkTimeRange (mkFTime "2003-01-01T00:00:00.0000Z")
                 (mkFTime "2599-12-31T23:59:59.0000Z"))
    (mkLocation (49 # 1) (11 # 1) (mkQuantity (1640 # 1)
                  (mkFUnit "METER" 0 "FOOT" 1 1)) "GEOGRAPHIC").

(** A network answering with the given stations. *)
Definition net_with (stations : list Station) : NetworkAccess PAZ :=
  {| net_label := "GE";
     net_retrieve_stations := Return stations;
     net_retrieve_for_station := fun _ =>
       Return [mkChannel (cha "BHZ"); mkChannel (cha "SHZ")];
     net_retrieve_channels_by_code := fun _ _ code =>
       Return [mkChannel (cha code)];
     net_retrieve_instrumentation := fun _ _ => Return instrumentation |}.

Definition client_with (stations : list Station) (seis : list Seismogram)
  : @Client toy :=
  @mkClient toy true (mkNetworkFinder (fun _ => Return [net_with stations]))
    (mkDataCenter (fun _ => Return seis)).

Definition sei_no_chunks : Seismogram :=
  seismogram "SHZ" 2 (seconds 0 1) [].

(** A response whose first stage has no POLEZERO filter and whose second
    stage has one. *)
Definition instrumentation_later_polezero : Instrumentation PAZ :=
  mkInstrumentation
    (mkResponse
       [mkStage [mkFilter "COEFFICIENT" paz0] [mkNormalization (6 # 1)];
        mkStage [mkFilter "POLEZERO" paz0] [mkNormalization (6 # 1)]]
       (mkSensitivity (5 # 1))).

Definition net_inst (inst : Instrumentation PAZ) : NetworkAccess PAZ :=
  {| net_label := "GE";
     net_retrieve_stations := Return [APE_now];
     net_retrieve_for_station := fun _ => Return [mkChannel (cha "BHZ")];
     net_retrieve_channels_by_code := fun _ _ code =>
       Return [mkChannel (cha code)];
     net_retrieve_instrumentation := fun _ _ => Return inst |}.

Definition client_inst (inst : Instrumentation PAZ) : @Client toy :=
  @mkClient toy true (mkNetworkFinder (fun _ => Return [net_inst inst]))
    (mkDataCenter (fun _ => Return [])).

End Fixture.

(** * Properties *)

(** ** The monad *)

Section MonadLaws.

Context {Ev A B C : Type}.

Lemma bind_ret_l (a : A) (f : A -> M Ev B) : bind (ret a) f = f a.
Proof. unfold bind, ret. now destruct (f a). Qed.

Lemma bind_ret_r (m : M Ev A) : bind m ret = m.
Proof.
  destruct m as [l [a | e]]; simpl; trivial.
  now rewrite app_nil_r.
Qed.

Lemma bind_raise (e : Exn) (f : A -> M Ev B) : bind (raise e) f = raise e.
Proof. reflexivity. Qed.

Lemma bind_assoc (m : M Ev A) (f : A -> M Ev B) (g : B -> M Ev C) :
  bind (bind m f) g = bind m (fun a => bind (f a) g).
Proof.
  destruct m as [l [a | e]]; simpl; trivial.
  destruct (f a) as [l1 [b | e1]]; simpl; trivial.
  destruct (g b) as [l2 o]. now rewrite app_assoc.
Qed.

Lemma bind_ext (m : M Ev A) (f g : A -> M Ev B) :
  (forall a, f a = g a) -> bind m f = bind m g.
Proof. intros H. destruct m as [l [a | e]]; simpl; trivial. now rewrite H. Qed.

Lemma outcome_bind (m : M Ev A) (f : A -> M Ev B) :
  outcome (bind m f) =
  match outcome m with
  | Return a => outcome (f a)
  | Raise e => Raise e
  end.
Proof.
  destruct m as [l [a | e]]; simpl; trivial. now destruct (f a).
Qed.

Lemma events_bind (m : M Ev A) (f : A -> M Ev B) :
  events (bind m f) =
  match outcome m with
  | Return a => events m ++ events (f a)
  | Raise e => events m
  end.
Proof.
  destruct m as [l [a | e]]; simpl; trivial. now destruct (f a).
Qed.

Lemma fails_bind_l (m : M Ev A) (f : A -> M Ev B) :
  fails m -> fails (bind m f).
Proof.
  intros [e He]. exists e. rewrite outcome_bind. now rewrite He.
Qed.

Lemma fails_bind_r (m : M Ev A) (f : A -> M Ev B) :
  (forall a, outcome m = Return a -> fails (f a)) -> fails (bind m f).
Proof.
  intros H. unfold fails. rewrite outcome_bind.
  destruct (outcome m) as [a | e] eqn:E.
  - now apply H.
  - now exists e.
Qed.

Lemma fails_not_return (m : M Ev A) (a : A) :
  fails m -> outcome m <> Return a.
Proof. intros [e He]. rewrite He. discriminate. Qed.

End MonadLaws.

(** ** Strings *)

Lemma find_from_absent (c : ascii) (s : string) (i : Z) :
  PyStr.contains c s = false -> PyStr.find_from c s i = -1.
Proof.
  revert i. induction s as [| a s IH]; intros i H; simpl in *; trivial.
  destruct (Ascii.eqb a c); simpl in H; [discriminate | now apply IH].
Qed.

Lemma find_from_ge (c : ascii) (s : string) (i : Z) :
  PyStr.find_from c s i = -1 \/ i <= PyStr.find_from c s i.
Proof.
  revert i. induction s as [| a s IH]; intros i; simpl.
  - now left.
  - destruct (Ascii.eqb a c); [right; lia |].
    destruct (IH (i + 1)) as [H | H]; [now left | right; lia].
Qed.

Lemma ltb_irrefl (s : string) : PyStr.lt s s = false.
Proof.
  unfold PyStr.lt, String.ltb.
  pose proof (String.compare_antisym s s) as H.
  destruct (String.compare s s); trivial. discriminate.
Qed.

(** The shape a channel code must have for line 178 to intercept it. *)
Lemma component_wildcard_shape (s : string) :
  component_wildcard s = true <->
  exists a b, a <> PyStr.star /\ b <> PyStr.star /\
              s = String a (String b (String PyStr.star EmptyString)).
Proof.
  unfold component_wildcard, PyStr.len, PyStr.find. split.
  - intros H. apply andb_true_iff in H as [Hl Hf].
    apply Z.eqb_eq in Hl. apply Z.eqb_eq in Hf.
    destruct s as [| a [| b [| c [| d s]]]]; simpl in Hl; try lia.
    simpl in Hf.
    destruct (Ascii.eqb a PyStr.star) eqn:Ea; [discriminate |].
    destruct (Ascii.eqb b PyStr.star) eqn:Eb; [discriminate |].
    destruct (Ascii.eqb c PyStr.star) eqn:Ec; [| discriminate].
    apply Ascii.eqb_neq in Ea, Eb. apply Ascii.eqb_eq in Ec. subst c.
    now exists a, b.
  - intros (a & b & Ha & Hb & ->). simpl.
    apply Ascii.eqb_neq in Ha, Hb. now rewrite Ha, Hb.
Qed.

Lemma component_wildcard_absent (s : string) :
  PyStr.contains PyStr.star s = false -> component_wildcard s = false.
Proof.
  intros H. unfold component_wildcard, PyStr.find.
  rewrite (find_from_absent _ _ 0 H). apply andb_false_r.
Qed.

Lemma expanded_not_wildcard (a b c : ascii) :
  a <> PyStr.star -> b <> PyStr.star -> c <> PyStr.star ->
  component_wildcard (String a (String b (String c EmptyString))) = false.
Proof.
  intros Ha Hb Hc. apply component_wildcard_absent. simpl.
  apply Ascii.eqb_neq in Ha, Hb, Hc. now rewrite Ha, Hb, Hc.
Qed.

(** ** Wildcard expansion *)

Section Expansion.

Context {L : Collaborators}.

Variables (self : Client) (network_id station_id location_id : string).
Variables (start_datetime end_datetime : UTCDateTime).
Variables (getPAZ_ getCoordinates_ : bool).

Local Abbreviation direct cha :=
  (getWaveform_direct self network_id station_id location_id cha
     start_datetime end_datetime getPAZ_ getCoordinates_).

Local Abbreviation rec depth cha :=
  (getWaveform_rec depth self network_id station_id location_id cha
     start_datetime end_datetime getPAZ_ getCoordinates_).

Lemma getWaveform_rec_S (d : nat) (cha : string) :
  rec (S d) cha =
  if component_wildcard cha then
    expand_loop (fun c => rec d c) (expanded_channels cha) []
  else direct cha.
Proof. reflexivity. Qed.

Lemma getWaveform_rec_direct (d : nat) (cha : string) :
  component_wildcard cha = false -> rec (S d) cha = direct cha.
Proof. intros H. rewrite getWaveform_rec_S. now rewrite H. Qed.

Lemma expand_loop_three (request : string -> M Event (Stream UTCDateTime pyfloat))
  (x y z : string) :
  expand_loop request [x; y; z] [] =
  (rx <- request x ;; ry <- request y ;; rz <- request z ;;
   ret (rx ++ ry ++ rz)).
Proof.
  simpl. apply bind_ext; intros rx. apply bind_ext; intros ry.
  apply bind_ext; intros rz. now rewrite app_assoc.
Qed.

Lemma getWaveform_rec_expand (d : nat) (a b : ascii) :
  a <> PyStr.star -> b <> PyStr.star ->
  rec (S (S d)) (PyStr.code3 a b PyStr.star) =
  (rz <- direct (PyStr.code3 a b "Z") ;;
   rn <- direct (PyStr.code3 a b "N") ;;
   re <- direct (PyStr.code3 a b "E") ;;
   ret (rz ++ rn ++ re)).
Proof.
  intros Ha Hb.
  assert (W : component_wildcard (PyStr.code3 a b PyStr.star) = true).
  { apply component_wildcard_shape. now exists a, b. }
  rewrite getWaveform_rec_S, W.
  change (expanded_channels (PyStr.code3 a b PyStr.star))
    with [PyStr.code3 a b "Z"; PyStr.code3 a b "N"; PyStr.code3 a b "E"].
  rewrite expand_loop_three. cbv beta.
  rewrite !getWaveform_rec_direct; trivial;
    apply expanded_not_wildcard; trivial; discriminate.
Qed.

(** Two levels of nesting are all the method ever uses. *)
Lemma getWaveform_rec_depth (d : nat) (cha : string) :
  rec (S (S d)) cha = rec 2 cha.
Proof.
  destruct (component_wildcard cha) eqn:W.
  - apply component_wildcard_shape in W as (a & b & Ha & Hb & ->).
    fold (PyStr.code3 a b PyStr.star). now rewrite !getWaveform_rec_expand.
  - now rewrite !getWaveform_rec_direct.
Qed.

Lemma getWaveform_not_intercepted (cha : string) :
  component_wildcard cha = false ->
  getWaveform self network_id station_id location_id cha
    start_datetime end_datetime getPAZ_ getCoordinates_ = direct cha.
Proof. intros H. now apply (getWaveform_rec_direct 1). Qed.

Lemma getWaveform_intercepted (a b : ascii) :
  a <> PyStr.star -> b <> PyStr.star ->
  getWaveform self network_id station_id location_id
    (PyStr.code3 a b PyStr.star) start_datetime end_datetime
    getPAZ_ getCoordinates_ =
  (rz <- direct (PyStr.code3 a b "Z") ;;
   rn <- direct (PyStr.code3 a b "N") ;;
   re <- direct (PyStr.code3 a b "E") ;;
   ret (rz ++ rn ++ re)).
Proof. intros Ha Hb. now apply (getWaveform_rec_expand 0). Qed.

End Expansion.

(** C2 (amended).  A channel code of exactly three characters whose first
    wildcard is the third character (the first two are not wildcards) makes
    [getWaveform] issue the request three times, with the third character
    replaced by Z, N and E in that order, each with the other arguments
    unchanged, and return the concatenation of the three results in that
    order (an exception of one of the three ends the call).  Every other
    channel code, among them three-character codes with a wildcard in the
    third and in an earlier position, is requested as it is. *)
Theorem getWaveform_component_wildcard {L : Collaborators}
  (self : Client) (network_id station_id location_id channel_id : string)
  (start_datetime end_datetime : UTCDateTime) (getPAZ_ getCoordinates_ : bool) :
  (forall a b : ascii,
      a <> PyStr.star -> b <> PyStr.star ->
      channel_id = PyStr.code3 a b PyStr.star ->
      getWaveform self network_id station_id location_id channel_id
        start_datetime end_datetime getPAZ_ getCoordinates_ =
      (rz <- getWaveform self network_id station_id location_id
               (PyStr.code3 a b "Z") start_datetime end_datetime
               getPAZ_ getCoordinates_ ;;
       rn <- getWaveform self network_id station_id location_id
               (PyStr.code3 a b "N") start_datetime end_datetime
               getPAZ_ getCoordinates_ ;;
       re <- getWaveform self network_id station_id location_id
               (PyStr.code3 a b "E") start_datetime end_datetime
               getPAZ_ getCoordinates_ ;;
       ret (rz ++ rn ++ re)))
  /\
  ((forall a b : ascii,
       a <> PyStr.star -> b <> PyStr.star ->
       channel_id <> PyStr.code3 a b PyStr.star) ->
   getWaveform self network_id station_id location_id channel_id
     start_datetime end_datetime getPAZ_ getCoordinates_ =
   getWaveform_direct self network_id station_id location_id channel_id
     start_datetime end_datetime getPAZ_ getCoordinates_).
Proof.
  split.
  - intros a b Ha Hb ->.
    rewrite getWaveform_intercepted by trivial.
    rewrite !getWaveform_not_intercepted;
      trivial; apply expanded_not_wildcard; trivial; discriminate.
  - intros H. apply getWaveform_not_intercepted.
    destruct (component_wildcard channel_id) eqn:W; trivial.
    apply component_wildcard_shape in W as (a & b & Ha & Hb & E).
    now destruct (H a b Ha Hb).
Qed.

(** The expansion at ["SH*"] (three requests, for SHZ, SHN and SHE) and
    the plain request at ["SHZ"]. *)
Lemma getWaveform_component_wildcard_SH :
  let call cha :=
    @getWaveform Fixture.toy (Fixture.client [Fixture.sei_ok])
      "GE" "APE" EmptyString cha Fixture.t0 Fixture.t1 false false in
  call "SH*" =
  (rz <- call "SHZ" ;; rn <- call "SHN" ;; re <- call "SHE" ;;
   ret (rz ++ rn ++ re))
  /\
  call "SHZ" =
  @getWaveform_direct Fixture.toy (Fixture.client [Fixture.sei_ok])
    "GE" "APE" EmptyString "SHZ" Fixture.t0 Fixture.t1 false false.
Proof.
  intros call. split.
  - apply (proj1 (@getWaveform_component_wildcard Fixture.toy
                    (Fixture.client [Fixture.sei_ok]) "GE" "APE" EmptyString
                    "SH*" Fixture.t0 Fixture.t1 false false) "S"%char "H"%char);
      [discriminate | discriminate | reflexivity].
  - apply (proj2 (@getWaveform_component_wildcard Fixture.toy
                    (Fixture.client [Fixture.sei_ok]) "GE" "APE" EmptyString
                    "SHZ" Fixture.t0 Fixture.t1 false false)).
    intros a b _ _ H. discriminate H.
Defined.

(** C2 as stated fails at ["S**"]: three characters, a wildcard in the
    third position, and yet a single request with the code as it is. *)
Lemma getWaveform_wildcard_third_position_unexpanded :
  let call cha :=
    @getWaveform Fixture.toy (Fixture.client [Fixture.sei_ok])
      "GE" "APE" EmptyString cha Fixture.t0 Fixture.t1 false false in
  String.length "S**" = 3%nat /\
  String.get 2 "S**" = Some PyStr.star /\
  events (call "S**") =
    [ev_retrieve_by_code "GE";
     ev_retrieve_channels_by_code "GE" "APE" "  " "S**";
     ev_retrieve_seismograms
       [mkRequestFilter (Fixture.cha "S**") (mkFTime Fixture.t0)
          (mkFTime Fixture.t1)]] /\
  call "S**" <>
    (rz <- call "S*Z" ;; rn <- call "S*N" ;; re <- call "S*E" ;;
     ret (rz ++ rn ++ re)).
Proof.
  intros call. repeat split; try reflexivity.
  intros H. apply (f_equal (fun m => List.length (events m))) in H.
  vm_compute in H. discriminate.
Qed.

(** C7.  [getPAZ] with a wildcard anywhere in the channel code raises the
    exception for invalid input at once: no event is emitted, so no remote
    object (network finder, network, station, channel, instrumentation) has
    been called. *)
Theorem getPAZ_wildcard_rejected {L : Collaborators}
  (self : Client) (network_id station_id channel_id : string)
  (datetime : UTCDateTime) :
  PyStr.contains PyStr.star channel_id = true ->
  getPAZ self network_id station_id channel_id datetime =
  ([], Raise (FissuresException "Wildcards not allowed in channel_id")).
Proof. intros H. unfold getPAZ. now rewrite H. Qed.

Lemma getPAZ_wildcard_rejected_BH :
  @getPAZ Fixture.toy (Fixture.client []) "GE" "APE" "BH*" Fixture.t0 =
  ([], Raise (FissuresException "Wildcards not allowed in channel_id")).
Proof.
  apply (@getPAZ_wildcard_rejected Fixture.toy). reflexivity.
Defined.

(** ** Attaching the response to the records *)

Lemma set_coordinates_paz {T R} (c : Coordinates) (tr : Trace T R) :
  paz (stats (set_coordinates c tr)) = paz (stats tr).
Proof. reflexivity. Qed.

Lemma set_paz_paz {T R} (p : PAZ) (tr : Trace T R) :
  paz (stats (set_paz p tr)) = Some p.
Proof. reflexivity. Qed.

Lemma Forall_paz_map {T R} (p : PAZ) (c : Coordinates)
  (st : list (Trace T R)) :
  Forall (fun tr => paz (stats tr) = Some p) (map (set_paz p) st) /\
  Forall (fun tr => paz (stats tr) = Some p)
         (map (set_coordinates c) (map (set_paz p) st)).
Proof.
  split; induction st as [| tr st IH]; simpl; constructor; trivial.
Qed.

(** ** Traces returned *)

Section MakeTrace.

Context {L : Collaborators}.

(** A trace that [make_trace] returns carries the rate computed by
    [calc_sampling_rate] and the concatenation of the decoded chunks. *)
Lemma make_trace_returns (self : Client) (sei : Seismogram)
  (tr : Trace UTCDateTime pyfloat) :
  outcome (make_trace self sei) = Return tr ->
  the_unit_base (the_units (interval (sampling_info sei))) = "SECOND" /\
  exists sr ds,
    calc_sampling_rate sei = Return sr /\
    decode_chunks self (encoded_values sei) [] = Return ds /\
    ds <> [] /\
    tr = mkTrace
           (mkStats (UTCDateTime_of (date_time (begin_time sei)))
              (num_points sei) sr (cha_station_code (channel_id sei))
              (network_code (network_id (channel_id sei)))
              (channel_code (channel_id sei))
              (PyStr.strip (site_code (channel_id sei))) None None)
           (List.concat ds) /\
    Trace_verify tr = Return tt.
Proof.
  unfold make_trace.
  destruct (String.eqb _ "SECOND") eqn:U; simpl; [| discriminate].
  apply String.eqb_eq in U. intros H. split; trivial.
  destruct (calc_sampling_rate sei) as [sr | e]; [| discriminate].
  destruct (decode_chunks self (encoded_values sei) []) as [ds | e];
    [| discriminate].
  destruct ds as [| d ds]; [discriminate |].
  unfold lift, bind, ret in H. cbn [np_concatenate] in H.
  match type of H with
  | context [Trace_verify ?t] => destruct (Trace_verify t) as [[] | e] eqn:V
  end; [| discriminate].
  simpl in H. injection H as <-.
  exists sr, (d :: ds). repeat split; trivial. discriminate.
Qed.

End MakeTrace.

(** ** Assembling the stream *)

Section Assembly.

Context {L : Collaborators}.

Variable self : Client.

Lemma decode_chunks_acc (chunks : list EncodedData) (data : list (list Z)) :
  decode_chunks self chunks data =
  match decode_chunks self chunks [] with
  | Return ds => Return (data ++ ds)
  | Raise e => Raise e
  end.
Proof.
  revert data. induction chunks as [| c chunks IH]; intros data; simpl.
  - now rewrite app_nil_r.
  - destruct (decode_chunk self c) as [d | e]; trivial.
    rewrite (IH (data ++ [d])), (IH [d]).
    destruct (decode_chunks self chunks []); trivial.
    now rewrite <- app_assoc.
Qed.

(** The chunk loop returns exactly when every chunk decodes, and then it
    returns the decoded chunks in the order of the chunks. *)
Lemma decode_chunks_returns (chunks : list EncodedData) (ds : list (list Z)) :
  decode_chunks self chunks [] = Return ds <->
  Forall2 (fun c d => decode_chunk self c = Return d) chunks ds.
Proof.
  revert ds. induction chunks as [| c chunks IH]; intros ds; simpl.
  - split.
    + intros H. injection H as <-. constructor.
    + intros H. now inversion H.
  - split.
    + destruct (decode_chunk self c) as [d | e] eqn:D; [| discriminate].
      rewrite decode_chunks_acc.
      destruct (decode_chunks self chunks []) as [ds' | e] eqn:R;
        [| discriminate].
      intros H. injection H as <-. constructor; trivial. now apply IH.
    + intros H. inversion H as [| ? d ? ds' D F]; subst.
      rewrite D, decode_chunks_acc. apply IH in F. now rewrite F.
Qed.



Lemma make_trace_events (sei : Seismogram) : events (make_trace self sei) = [].
Proof.
  unfold make_trace. destruct (negb _); trivial.
  destruct (calc_sampling_rate sei); trivial. simpl.
  destruct (decode_chunks self (encoded_values sei) []) as [ds | e]; trivial.
  simpl. destruct (np_concatenate ds); trivial. simpl.
  now destruct (Trace_verify _) as [[] | e].
Qed.

Lemma make_trace_wrong_unit (sei : Seismogram) :
  the_unit_base (the_units (interval (sampling_info sei))) <> "SECOND" ->
  make_trace self sei = raise (FissuresException "Wrong unit!").
Proof.
  intros H. unfold make_trace. apply String.eqb_neq in H. now rewrite H.
Qed.



Lemma build_stream_app (pre post : list Seismogram) (st : Stream UTCDateTime pyfloat) :
  build_stream self (pre ++ post) st =
  (st' <- build_stream self pre st ;; build_stream self post st').
Proof.
  revert st. induction pre as [| sei pre IH]; intros st;
    cbn [build_stream app].
  - now rewrite bind_ret_l.
  - destruct (num_points sei =? 0); trivial.
    rewrite bind_assoc. apply bind_ext. intros tr. apply IH.
Qed.

Lemma build_stream_events (seis : list Seismogram) (st : Stream UTCDateTime pyfloat) :
  events (build_stream self seis st) = [].
Proof.
  revert st. induction seis as [| sei seis IH]; intros st; simpl; trivial.
  destruct (num_points sei =? 0); trivial.
  rewrite events_bind, make_trace_events.
  destruct (outcome (make_trace self sei)); trivial. apply IH.
Qed.

(** Keep-alive seismograms are skipped. *)
Lemma build_stream_skips (seis : list Seismogram) (st : Stream UTCDateTime pyfloat) :
  build_stream self seis st = build_stream self (filter non_empty seis) st.
Proof.
  revert st. induction seis as [| sei seis IH]; intros st; simpl; trivial.
  unfold non_empty at 1. destruct (num_points sei =? 0) eqn:E; simpl; trivial.
  rewrite E. apply bind_ext. intros tr. apply IH.
Qed.

(** The loop returns exactly when every seismogram that is not a keep-alive
    yields a trace, and then it has appended these traces in order. *)
Lemma build_stream_returns (seis : list Seismogram)
  (st st' : Stream UTCDateTime pyfloat) :
  outcome (build_stream self seis st) = Return st' <->
  exists trs,
    Forall2 (fun sei tr => outcome (make_trace self sei) = Return tr)
            (filter non_empty seis) trs /\
    st' = st ++ trs.
Proof.
  revert st. induction seis as [| sei seis IH]; intros st; simpl.
  - split.
    + intros H. injection H as <-. exists []. split; [constructor |].
      now rewrite app_nil_r.
    + intros (trs & F & ->). inversion F. now rewrite app_nil_r.
  - unfold non_empty at 1. destruct (num_points sei =? 0); simpl; [apply IH |].
    rewrite outcome_bind. split.
    + destruct (outcome (make_trace self sei)) as [tr | e] eqn:T;
        [| discriminate].
      intros H. apply IH in H as (trs & F & ->).
      exists (tr :: trs). split; [now constructor |].
      now rewrite <- app_assoc.
    + intros (trs & F & ->). inversion F as [| ? tr ? trs' T F']; subst.
      rewrite T. apply IH. exists trs'. split; trivial.
      now rewrite <- app_assoc.
Qed.

Lemma build_stream_first_failure (pre post : list Seismogram)
  (sei : Seismogram) (st st' : Stream UTCDateTime pyfloat) (e : Exn) :
  outcome (build_stream self pre st) = Return st' ->
  num_points sei <> 0 ->
  outcome (make_trace self sei) = Raise e ->
  outcome (build_stream self (pre ++ sei :: post) st) = Raise e.
Proof.
  intros P N T. rewrite build_stream_app, outcome_bind, P. simpl.
  apply Z.eqb_neq in N. rewrite N, outcome_bind. now rewrite T.
Qed.

Lemma build_stream_fails (seis : list Seismogram) (sei : Seismogram)
  (st : Stream UTCDateTime pyfloat) :
  In sei seis -> num_points sei <> 0 -> fails (make_trace self sei) ->
  fails (build_stream self seis st).
Proof.
  intros H N T. revert st.
  induction seis as [| s seis IH]; intros st; simpl; [contradiction |].
  destruct H as [-> | H].
  - apply Z.eqb_neq in N. rewrite N. now apply fails_bind_l.
  - destruct (num_points s =? 0); [now apply IH |].
    apply fails_bind_r. intros tr _. now apply IH.
Qed.

End Assembly.

(** ** The sampling rate *)





(** ** Failures inside the retrieval *)

Section Retrieval.

Context {L : Collaborators}.

Variables (self : Client) (network_id station_id location_id : string).
Variables (start_datetime end_datetime : UTCDateTime).
Variables (getPAZ_ getCoordinates_ : bool).

Local Abbreviation direct cha :=
  (getWaveform_direct self network_id station_id location_id cha
     start_datetime end_datetime getPAZ_ getCoordinates_).

Local Abbreviation whole cha :=
  (getWaveform self network_id station_id location_id cha
     start_datetime end_datetime getPAZ_ getCoordinates_).

Lemma direct_build_failure (cha : string) (channels : list Channel)
  (seis : list Seismogram) (e : Exn) :
  outcome (_getChannelObj self network_id station_id location_id cha)
  = Return channels ->
  outcome (_getSeisObj self channels start_datetime end_datetime)
  = Return seis ->
  outcome (build_stream self seis []) = Raise e ->
  outcome (direct cha) = Raise e.
Proof.
  intros C S B. unfold getWaveform_direct.
  now rewrite outcome_bind, C, outcome_bind, S, outcome_bind, B.
Qed.

Lemma direct_build_fails (cha : string) (channels : list Channel)
  (seis : list Seismogram) :
  outcome (_getChannelObj self network_id station_id location_id cha)
  = Return channels ->
  outcome (_getSeisObj self channels start_datetime end_datetime)
  = Return seis ->
  fails (build_stream self seis []) ->
  fails (direct cha).
Proof.
  intros C S [e B]. exists e. now apply direct_build_failure with channels seis.
Qed.

(** A request that fails makes the whole call fail. *)
Lemma requested_fails (cha cha' : string) :
  In cha' (requested_channels cha) -> fails (direct cha') -> fails (whole cha).
Proof.
  unfold requested_channels. intros H F.
  destruct (component_wildcard cha) eqn:W.
  - apply component_wildcard_shape in W as (a & b & Ha & Hb & ->).
    fold (PyStr.code3 a b PyStr.star).
    rewrite getWaveform_intercepted by trivial.
    change (In cha' [PyStr.code3 a b "Z"; PyStr.code3 a b "N";
                     PyStr.code3 a b "E"]) in H.
    destruct H as [<- | [<- | [<- | []]]].
    + now apply fails_bind_l.
    + apply fails_bind_r. intros rz _. now apply fails_bind_l.
    + apply fails_bind_r. intros rz _. apply fails_bind_r. intros rn _.
      now apply fails_bind_l.
  - destruct H as [<- | []]. now rewrite getWaveform_not_intercepted.
Qed.

Lemma retrieved_segment_fails (cha cha' : string) (channels : list Channel)
  (seis : list Seismogram) (sei : Seismogram) :
  In cha' (requested_channels cha) ->
  outcome (_getChannelObj self network_id station_id location_id cha')
  = Return channels ->
  outcome (_getSeisObj self channels start_datetime end_datetime)
  = Return seis ->
  In sei seis -> num_points sei <> 0 -> fails (make_trace self sei) ->
  fails (whole cha).
Proof.
  intros R C S I N T. apply requested_fails with cha'; trivial.
  apply direct_build_fails with channels seis; trivial.
  now apply build_stream_fails with sei.
Qed.

Lemma first_failing_segment (cha : string) (channels : list Channel)
  (pre post : list Seismogram) (sei : Seismogram)
  (st : Stream UTCDateTime pyfloat) (e : Exn) :
  component_wildcard cha = false ->
  outcome (_getChannelObj self network_id station_id location_id cha)
  = Return channels ->
  outcome (_getSeisObj self channels start_datetime end_datetime)
  = Return (pre ++ sei :: post) ->
  outcome (build_stream self pre []) = Return st ->
  num_points sei <> 0 ->
  outcome (make_trace self sei) = Raise e ->
  outcome (whole cha) = Raise e.
Proof.
  intros W C S P N T. rewrite getWaveform_not_intercepted by trivial.
  apply direct_build_failure with channels (pre ++ sei :: post); trivial.
  now apply build_stream_first_failure with st.
Qed.

End Retrieval.

(** The retrieval alone, when each of its steps returns. *)
Lemma retrieval_returns {L : Collaborators}
  (self : Client) (network_id station_id location_id cha : string)
  (start_datetime end_datetime : UTCDateTime)
  (channels : list Channel) (seis : list Seismogram)
  (st0 st1 : Stream UTCDateTime pyfloat) :
  outcome (_getChannelObj self network_id station_id location_id cha)
  = Return channels ->
  outcome (_getSeisObj self channels start_datetime end_datetime)
  = Return seis ->
  outcome (build_stream self seis []) = Return st0 ->
  Stream_trim st0 start_datetime end_datetime = Return st1 ->
  getWaveform_direct self network_id station_id location_id cha
    start_datetime end_datetime false false =
  (events (_getChannelObj self network_id station_id location_id cha)
     ++ events (_getSeisObj self channels start_datetime end_datetime),
   Return st1).
Proof.
  intros C S B T. unfold getWaveform_direct.
  pose proof (build_stream_events self seis []) as BE.
  destruct (_getChannelObj self network_id station_id location_id cha)
    as [l1 o1]. simpl in C. subst o1.
  destruct (_getSeisObj self channels start_datetime end_datetime)
    as [l2 o2] eqn:E2. simpl in S. subst o2.
  cbn [bind]. rewrite E2. cbn [bind].
  destruct (build_stream self seis []) as [l3 o3]. simpl in B, BE. subst.
  cbn [bind lift]. rewrite T. simpl. now rewrite !app_nil_r.
Qed.

(** C10.  With [getPAZ=True] and a channel code without wildcard,
    [getWaveform] is the retrieval (the same call with both flags off),
    followed by one call of [getPAZ] with the network, the station, the
    default channel code ["BHZ"] in place of the requested one, and the start
    time, whose result is put on every record; the coordinates, when asked
    for, follow.  So every record of a returned stream carries that one
    result, whatever its own channel.  When the retrieval returns the trimmed
    stream, the call emits the events of the retrieval and then those of
    that one lookup, and returns the trimmed records with the lookup's result
    on each, or raises what the lookup raises. *)
Theorem getWaveform_paz_lookup {L : Collaborators}
  (self : Client) (network_id station_id location_id channel_id : string)
  (start_datetime end_datetime : UTCDateTime) (getCoordinates_ : bool) :
  PyStr.contains PyStr.star channel_id = false ->
  getWaveform self network_id station_id location_id channel_id
    start_datetime end_datetime true getCoordinates_ =
  (st <- getWaveform self network_id station_id location_id channel_id
           start_datetime end_datetime false false ;;
   data <- getPAZ self network_id station_id "BHZ" start_datetime ;;
   if getCoordinates_ then
     c <- getCoordinates self network_id station_id start_datetime ;;
     ret (map (set_coordinates c) (map (set_paz data) st))
   else ret (map (set_paz data) st))
  /\
  (forall st,
      outcome (getWaveform self network_id station_id location_id channel_id
                 start_datetime end_datetime true getCoordinates_) = Return st ->
      exists data,
        outcome (getPAZ self network_id station_id "BHZ" start_datetime)
        = Return data /\
        Forall (fun tr => paz (stats tr) = Some data) st)
  /\
  (forall channels seis st0 st1,
      outcome (_getChannelObj self network_id station_id location_id
                 channel_id) = Return channels ->
      outcome (_getSeisObj self channels start_datetime end_datetime)
      = Return seis ->
      outcome (build_stream self seis []) = Return st0 ->
      Stream_trim st0 start_datetime end_datetime = Return st1 ->
      let retrieval :=
        events (_getChannelObj self network_id station_id location_id
                  channel_id)
        ++ events (_getSeisObj self channels start_datetime end_datetime) in
      let lookup := getPAZ self network_id station_id "BHZ" start_datetime in
      (forall data,
          outcome lookup = Return data ->
          getWaveform self network_id station_id location_id channel_id
            start_datetime end_datetime true false
          = (retrieval ++ events lookup, Return (map (set_paz data) st1)) /\
          forall c,
            outcome (getCoordinates self network_id station_id start_datetime)
            = Return c ->
            getWaveform self network_id station_id location_id channel_id
              start_datetime end_datetime true true
            = (retrieval ++ events lookup
                 ++ events (getCoordinates self network_id station_id
                              start_datetime),
               Return (map (set_coordinates c) (map (set_paz data) st1))))
      /\
      (forall e,
          outcome lookup = Raise e ->
          getWaveform self network_id station_id location_id channel_id
            start_datetime end_datetime true getCoordinates_
          = (retrieval ++ events lookup, Raise e))).
Proof.
  intros H.
  assert (E : forall gc,
             getWaveform self network_id station_id location_id channel_id
               start_datetime end_datetime true gc =
             (st <- getWaveform self network_id station_id location_id
                      channel_id start_datetime end_datetime false false ;;
              data <- getPAZ self network_id station_id "BHZ" start_datetime ;;
              if gc then
                c <- getCoordinates self network_id station_id start_datetime ;;
                ret (map (set_coordinates c) (map (set_paz data) st))
              else ret (map (set_paz data) st))).
  { intros gc. rewrite !getWaveform_not_intercepted
      by now apply component_wildcard_absent.
    unfold getWaveform_direct. rewrite H.
    rewrite !bind_assoc. apply bind_ext; intros channels.
    rewrite !bind_assoc. apply bind_ext; intros seis.
    rewrite !bind_assoc. apply bind_ext; intros st0.
    rewrite !bind_assoc. apply bind_ext; intros st.
    repeat (progress rewrite ?bind_ret_l, ?bind_assoc).
    apply bind_ext; intros data.
    repeat (progress rewrite ?bind_ret_l, ?bind_ret_r).
    unfold deepcopy, getPAZ_default_channel_id.
    now destruct gc. }
  split; [apply E |]. split.
  - intros st. rewrite E. rewrite outcome_bind.
    destruct (outcome (getWaveform _ _ _ _ _ _ _ false false))
      as [st0 | e]; [| discriminate].
    rewrite outcome_bind.
    destruct (outcome (getPAZ _ _ _ "BHZ" _)) as [data | e]; [| discriminate].
    intros R. exists data. split; trivial.
    destruct getCoordinates_.
    + rewrite outcome_bind in R.
      destruct (outcome (getCoordinates _ _ _ _)) as [c | e]; [| discriminate].
      injection R as <-. apply Forall_paz_map.
    + injection R as <-. apply (Forall_paz_map data (mkCoordinates 0 0 0)).
  - intros channels seis st0 st1 C S B T retrieval lookup.
    assert (F : getWaveform self network_id station_id location_id channel_id
                  start_datetime end_datetime false false
                = (retrieval, Return st1)).
    { rewrite getWaveform_not_intercepted
        by now apply component_wildcard_absent.
      now apply retrieval_returns with seis st0. }
    split.
    + intros data D. split.
      * rewrite E, F. cbn [bind]. fold lookup.
        destruct lookup as [l o]. simpl in D. subst o.
        simpl. now rewrite app_nil_r.
      * intros c CO. rewrite E, F. cbn [bind]. fold lookup.
        destruct lookup as [l o]. simpl in D. subst o. cbn [bind].
        destruct (getCoordinates self network_id station_id start_datetime)
          as [lc oc]. simpl in CO. subst oc.
        simpl. now rewrite app_nil_r.
    + intros e D. rewrite E, F. cbn [bind]. fold lookup.
      destruct lookup as [l o]. simpl in D. now subst o.
Qed.

Lemma getWaveform_paz_lookup_SHZ :
  let self := Fixture.client [Fixture.sei_ok] in
  let paz0 := mkPAZ [(-1 # 1, 1 # 1)%Q] [(0 # 1, 0 # 1)%Q] (Some (6 # 1))
                (Some (5 # 1)) in
  @getWaveform Fixture.toy self "GE" "APE" EmptyString "SHZ"
    Fixture.t0 Fixture.t1 true false =
  ([ev_retrieve_by_code "GE";
    ev_retrieve_channels_by_code "GE" "APE" "  " "SHZ";
    ev_retrieve_seismograms
      [mkRequestFilter (Fixture.cha "SHZ") (mkFTime Fixture.t0)
         (mkFTime Fixture.t1)];
    ev_retrieve_by_code "GE";
    ev_retrieve_stations "GE";
    ev_warn "FissuresWarning" "station";
    ev_retrieve_for_station "GE" (sta_id Fixture.APE_old);
    ev_retrieve_instrumentation "GE" (Fixture.cha "BHZ") (mkFTime Fixture.t0)],
   Return
     [mkTrace (mkStats Fixture.t0 3 (Fixture.b64_of_Z 3) "APE" "GE" "SHZ"
                 EmptyString (Some paz0) None) [1; 2; 3]]).
Proof.
  intros self paz0.
  pose proof (@getWaveform_paz_lookup Fixture.toy self "GE" "APE" EmptyString
                "SHZ" Fixture.t0 Fixture.t1 false eq_refl) as (_ & _ & R).
  apply (R [mkChannel (Fixture.cha "SHZ")] [Fixture.sei_ok]
           [mkTrace (mkStats Fixture.t0 3 (Fixture.b64_of_Z 3) "APE" "GE" "SHZ"
                       EmptyString None None) [1; 2; 3]]
           [mkTrace (mkStats Fixture.t0 3 (Fixture.b64_of_Z 3) "APE" "GE" "SHZ"
                       EmptyString None None) [1; 2; 3]]
           eq_refl eq_refl eq_refl eq_refl).
  reflexivity.
Defined.

(** The call raises the exception of the first request that fails. *)
Lemma first_failing_request {L : Collaborators}
  (self : Client) (network_id station_id location_id channel_id : string)
  (start_datetime end_datetime : UTCDateTime) (getPAZ_ getCoordinates_ : bool)
  (before after : list string) (cha : string) (e : Exn) :
  requested_channels channel_id = before ++ cha :: after ->
  Forall (fun c =>
            exists r,
              outcome (getWaveform self network_id station_id location_id c
                         start_datetime end_datetime getPAZ_ getCoordinates_)
              = Return r) before ->
  outcome (getWaveform_direct self network_id station_id location_id cha
             start_datetime end_datetime getPAZ_ getCoordinates_) = Raise e ->
  outcome (getWaveform self network_id station_id location_id channel_id
             start_datetime end_datetime getPAZ_ getCoordinates_) = Raise e.
Proof.
  unfold requested_channels. intros R B D.
  destruct (component_wildcard channel_id) eqn:W.
  - apply component_wildcard_shape in W as (a & b & Ha & Hb & ->).
    fold (PyStr.code3 a b PyStr.star).
    rewrite getWaveform_intercepted by trivial.
    change (expanded_channels (String a (String b (String PyStr.star
                                                     EmptyString))))
      with [PyStr.code3 a b "Z"; PyStr.code3 a b "N"; PyStr.code3 a b "E"]
      in R.
    assert (NI : forall c, c <> PyStr.star ->
                           component_wildcard (PyStr.code3 a b c) = false)
      by (intros c Hc; now apply expanded_not_wildcard).
    destruct before as [| x [| y [| z before]]]; simpl in R.
    + injection R as <- _. now rewrite outcome_bind, D.
    + injection R as <- <- _.
      inversion B as [| ? ? [rz Hz] _]; subst.
      rewrite getWaveform_not_intercepted in Hz by (apply NI; discriminate).
      rewrite outcome_bind, Hz. now rewrite outcome_bind, D.
    + injection R as <- <- <- _.
      inversion B as [| ? ? [rz Hz] B']; subst.
      inversion B' as [| ? ? [rn Hn] _]; subst.
      rewrite getWaveform_not_intercepted in Hz by (apply NI; discriminate).
      rewrite getWaveform_not_intercepted in Hn by (apply NI; discriminate).
      rewrite outcome_bind, Hz, outcome_bind, Hn.
      now rewrite outcome_bind, D.
    + injection R as _ _ _ R. destruct before; discriminate R.
  - rewrite getWaveform_not_intercepted by trivial.
    destruct before as [| x before]; simpl in R.
    + now injection R as <- _.
    + injection R as _ R. destruct before; discriminate R.
Qed.

(** C3 (amended).  When a seismogram retrieved for one of the requested
    channel codes has a non-zero sample count and an interval unit other than
    SECOND, the call raises and returns no stream, not even the traces built
    from earlier seismograms.  The exception is FissuresException
    ("Wrong unit!") when nothing failed before that seismogram: the requests
    for the channel codes before its own (in an expanded call) returned, and
    the seismograms before it in its own request were assembled without
    error.  When an earlier request, or an earlier seismogram of its request,
    is the first to fail, the exception is that one's. *)
Theorem getWaveform_wrong_unit {L : Collaborators}
  (self : Client) (network_id station_id location_id channel_id : string)
  (start_datetime end_datetime : UTCDateTime) (getPAZ_ getCoordinates_ : bool)
  (cha : string) (channels : list Channel) (seis : list Seismogram)
  (sei : Seismogram) :
  In cha (requested_channels channel_id) ->
  outcome (_getChannelObj self network_id station_id location_id cha)
  = Return channels ->
  outcome (_getSeisObj self channels start_datetime end_datetime)
  = Return seis ->
  In sei seis ->
  num_points sei <> 0 ->
  the_unit_base (the_units (interval (sampling_info sei))) <> "SECOND" ->
  let whole :=
    getWaveform self network_id station_id location_id channel_id
      start_datetime end_datetime getPAZ_ getCoordinates_ in
  let returns c :=
    exists r,
      outcome (getWaveform self network_id station_id location_id c
                 start_datetime end_datetime getPAZ_ getCoordinates_)
      = Return r in
  fails whole
  /\
  (forall before after pre post st,
      requested_channels channel_id = before ++ cha :: after ->
      Forall returns before ->
      seis = pre ++ sei :: post ->
      outcome (build_stream self pre []) = Return st ->
      outcome whole = Raise (FissuresException "Wrong unit!"))
  /\
  (forall before after pre post st s e,
      requested_channels channel_id = before ++ cha :: after ->
      Forall returns before ->
      seis = pre ++ s :: post ->
      outcome (build_stream self pre []) = Return st ->
      num_points s <> 0 ->
      outcome (make_trace self s) = Raise e ->
      outcome whole = Raise e)
  /\
  (forall before after c e,
      requested_channels channel_id = before ++ c :: after ->
      Forall returns before ->
      outcome (getWaveform self network_id station_id location_id c
                 start_datetime end_datetime getPAZ_ getCoordinates_)
      = Raise e ->
      outcome whole = Raise e).
Proof.
  intros R C S I N U whole returns.
  pose proof (make_trace_wrong_unit self sei U) as T.
  assert (SEG : forall before after pre post st s e,
             requested_channels channel_id = before ++ cha :: after ->
             Forall returns before ->
             seis = pre ++ s :: post ->
             outcome (build_stream self pre []) = Return st ->
             num_points s <> 0 ->
             outcome (make_trace self s) = Raise e ->
             outcome whole = Raise e).
  { intros before after pre post st s e RQ B -> P Ns Ts.
    apply first_failing_request with before after cha; trivial.
    apply direct_build_failure with channels (pre ++ s :: post); trivial.
    now apply build_stream_first_failure with st. }
  split; [| split; [| split]].
  - apply retrieved_segment_fails with cha channels seis sei; trivial.
    rewrite T. now eexists.
  - intros before after pre post st RQ B E P.
    apply (SEG before after pre post st sei); trivial. now rewrite T.
  - exact SEG.
  - intros before after c e RQ B F.
    apply first_failing_request with before after c; trivial.
    rewrite <- getWaveform_not_intercepted; trivial.
    assert (Ic : In c (requested_channels channel_id)).
    { rewrite RQ. apply in_or_app. right. now left. }
    unfold requested_channels in Ic.
    destruct (component_wildcard channel_id) eqn:W.
    + apply component_wildcard_shape in W as (a & b & Ha & Hb & ->).
      change (In c [PyStr.code3 a b "Z"; PyStr.code3 a b "N";
                    PyStr.code3 a b "E"]) in Ic.
      destruct Ic as [<- | [<- | [<- | []]]];
        apply expanded_not_wildcard; trivial; discriminate.
    + destruct Ic as [<- | []]. exact W.
Qed.

Lemma getWaveform_wrong_unit_second_segment :
  outcome (@getWaveform Fixture.toy
             (Fixture.client [Fixture.sei_ok; Fixture.sei_bad_unit])
             "GE" "APE" EmptyString "SHZ" Fixture.t0 Fixture.t1 false false)
  = Raise (FissuresException "Wrong unit!")
  /\
  outcome (@getWaveform Fixture.toy
             (Fixture.client [Fixture.sei_ok; Fixture.sei_bad_unit])
             "GE" "APE" EmptyString "SH*" Fixture.t0 Fixture.t1 false false)
  = Raise (FissuresException "Wrong unit!").
Proof.
  split.
  - apply (proj1 (proj2
      (@getWaveform_wrong_unit Fixture.toy
         (Fixture.client [Fixture.sei_ok; Fixture.sei_bad_unit])
         "GE" "APE" EmptyString "SHZ" Fixture.t0 Fixture.t1 false false
         "SHZ" [mkChannel (Fixture.cha "SHZ")]
         [Fixture.sei_ok; Fixture.sei_bad_unit] Fixture.sei_bad_unit
         (or_introl eq_refl) eq_refl eq_refl (or_intror (or_introl eq_refl))
         ltac:(discriminate) ltac:(discriminate)))
      [] [] [Fixture.sei_ok] []
      [mkTrace (mkStats Fixture.t0 3 (Fixture.b64_of_Z 3) "APE" "GE" "SHZ"
                  EmptyString None None) [1; 2; 3]]
      eq_refl (Forall_nil _) eq_refl eq_refl).
  - apply (proj1 (proj2
      (@getWaveform_wrong_unit Fixture.toy
         (Fixture.client [Fixture.sei_ok; Fixture.sei_bad_unit])
         "GE" "APE" EmptyString "SH*" Fixture.t0 Fixture.t1 false false
         "SHZ" [mkChannel (Fixture.cha "SHZ")]
         [Fixture.sei_ok; Fixture.sei_bad_unit] Fixture.sei_bad_unit
         (or_introl eq_refl) eq_refl eq_refl (or_intror (or_introl eq_refl))
         ltac:(discriminate) ltac:(discriminate)))
      [] ["SHN"; "SHE"] [Fixture.sei_ok] []
      [mkTrace (mkStats Fixture.t0 3 (Fixture.b64_of_Z 3) "APE" "GE" "SHZ"
                  EmptyString None None) [1; 2; 3]]
      eq_refl (Forall_nil _) eq_refl eq_refl).
Defined.

(** C3 as stated fails when an earlier seismogram fails otherwise: the
    second seismogram is not empty and declares METER, and the call raises
    NotImplementedError for the first one's compression. *)
Lemma getWaveform_wrong_unit_preceded :
  let seis := [Fixture.sei_bad_tag; Fixture.sei_bad_unit] in
  In Fixture.sei_bad_unit seis /\
  num_points Fixture.sei_bad_unit <> 0 /\
  the_unit_base
    (the_units (interval (sampling_info Fixture.sei_bad_unit))) <> "SECOND" /\
  outcome (@getWaveform Fixture.toy (Fixture.client seis)
             "GE" "APE" EmptyString "SHZ" Fixture.t0 Fixture.t1 false false)
  = Raise (NotImplementedError "Compression 99 not implemented") /\
  outcome (@getWaveform Fixture.toy (Fixture.client seis)
             "GE" "APE" EmptyString "SHZ" Fixture.t0 Fixture.t1 false false)
  <> Raise (FissuresException "Wrong unit!").
Proof.
  cbv zeta. split; [right; now left |].
  split; [discriminate |]. split; [discriminate |].
  split; [reflexivity | discriminate].
Qed.





(** C9 (amended).  A call for a channel code requested as it is hands to
    the trimming the stream assembled from the retrieved seismograms.  The
    assembly holds one trace for each seismogram whose sample count is not
    zero, in the order received (one trace per seismogram, also when several
    seismograms belong to one channel); seismograms with a sample count of
    zero, the keep-alives, are skipped and give no trace and no samples.  The
    samples of a trace are the decoded chunks of its seismogram concatenated
    in the order received, every chunk being decoded whatever sample count it
    declares. *)
Theorem getWaveform_assembly {L : Collaborators}
  (self : Client) (network_id station_id location_id cha : string)
  (start_datetime end_datetime : UTCDateTime) :
  (component_wildcard cha = false ->
   getWaveform self network_id station_id location_id cha
     start_datetime end_datetime false false =
   (channels <- _getChannelObj self network_id station_id location_id cha ;;
    seis <- _getSeisObj self channels start_datetime end_datetime ;;
    st <- build_stream self seis [] ;;
    lift (Stream_trim st start_datetime end_datetime)))
  /\
  (forall seis st,
      outcome (build_stream self seis []) = Return st <->
      Forall2 (fun sei tr => outcome (make_trace self sei) = Return tr)
              (filter (fun sei => negb (num_points sei =? 0)) seis) st)
  /\
  (forall sei tr,
      outcome (make_trace self sei) = Return tr ->
      exists ds,
        Forall2 (fun c d => decode_chunk self c = Return d)
                (encoded_values sei) ds /\
        data tr = List.concat ds /\
        channel (stats tr) = channel_code (channel_id sei)).
Proof.
  split; [| split].
  - intros W. rewrite getWaveform_not_intercepted by trivial.
    unfold getWaveform_direct.
    apply bind_ext; intros channels. apply bind_ext; intros seis.
    apply bind_ext; intros st.
    destruct (lift (Stream_trim st start_datetime end_datetime))
      as [l [st' | e]]; trivial.
    simpl. now rewrite app_nil_r.
  - intros seis st. rewrite build_stream_returns. split.
    + now intros (trs & F & ->).
    + intros F. now exists st.
  - intros sei tr T.
    apply make_trace_returns in T as (_ & sr & ds & _ & D & _ & -> & _).
    exists ds. split; [now apply decode_chunks_returns |]. now split.
Qed.

Lemma getWaveform_assembly_fixture :
  let seis := [Fixture.sei_ok; Fixture.sei_keep_alive; Fixture.sei_ok'] in
  let self := Fixture.client seis in
  @getWaveform Fixture.toy self "GE" "APE" EmptyString "SHZ"
    Fixture.t0 Fixture.t1 false false =
  (channels <- @_getChannelObj Fixture.toy self "GE" "APE" EmptyString "SHZ" ;;
   seis <- @_getSeisObj Fixture.toy self channels Fixture.t0 Fixture.t1 ;;
   st <- @build_stream Fixture.toy self seis [] ;;
   lift (@Stream_trim Fixture.toy st Fixture.t0 Fixture.t1))
  /\
  exists ds,
    Forall2 (fun c d => @decode_chunk Fixture.toy self c = Return d)
            (encoded_values Fixture.sei_ok) ds /\
    [1; 2; 3] = List.concat ds.
Proof.
  intros seis self.
  pose proof (@getWaveform_assembly Fixture.toy self "GE" "APE" EmptyString
                "SHZ" Fixture.t0 Fixture.t1) as (E & _ & D).
  split; [exact (E eq_refl) |].
  destruct (D Fixture.sei_ok
              (mkTrace (mkStats Fixture.t0 3 (Fixture.b64_of_Z 3) "APE" "GE" "SHZ"
                          EmptyString None None) [1; 2; 3]) eq_refl)
    as (ds & F & C & _).
  exists ds. now split.
Defined.

(** C9 as stated fails twice.  Two seismograms of one channel give two
    traces, not one continuous sequence; and a chunk declaring no samples
    inside a seismogram that has samples is decoded, not discarded, so that
    its unsupported tag ends the call. *)
Lemma getWaveform_per_segment_not_per_channel :
  (exists st,
      outcome (@getWaveform Fixture.toy
                 (Fixture.client [Fixture.sei_ok; Fixture.sei_ok'])
                 "GE" "APE" EmptyString "SHZ" Fixture.t0 Fixture.t1
                 false false) = Return st /\
      map (fun tr => (channel (stats tr), data tr)) st =
      [("SHZ", [1; 2; 3]); ("SHZ", [4; 5])]) /\
  In (mkEncodedData 99 false [] 0)
     (encoded_values Fixture.sei_empty_chunk_bad_tag) /\
  outcome (@getWaveform Fixture.toy
             (Fixture.client [Fixture.sei_empty_chunk_bad_tag])
             "GE" "APE" EmptyString "SHZ" Fixture.t0 Fixture.t1 false false)
  = Raise (NotImplementedError "Compression 99 not implemented").
Proof.
  split.
  - eexists. split; [vm_compute; reflexivity | reflexivity].
  - split; [right; now left | reflexivity].
Qed.

(** ** Selecting the first candidate *)

Section Selection.

Context {L : Collaborators}.

(** One selection step followed by the rest of the call. *)
Lemma use_first_step {A B} (list_ : list A) (type_str : string)
  (k : A -> M Event B) :
  match list_ with
  | [] => bind (use_first_and_raise_or_warn list_ type_str) k
          = ([], Raise (NotFoundError type_str))
  | [x] => bind (use_first_and_raise_or_warn list_ type_str) k = k x
  | x :: _ :: _ =>
      bind (use_first_and_raise_or_warn list_ type_str) k
      = (warn_fissures type_str ;;; k x)
  end.
Proof.
  destruct list_ as [| x [| y r]].
  - reflexivity.
  - apply bind_ret_l.
  - unfold use_first_and_raise_or_warn. rewrite bind_assoc.
    apply bind_ext. intros _. apply bind_ret_l.
Qed.

Lemma _getStationObj_resolved (self : Client) (network_id station_id : string)
  (datetime : UTCDateTime) (net : NetworkAccess PoleZeroFilter)
  (rest : list (NetworkAccess PoleZeroFilter)) (all : list Station) :
  nf_retrieve_by_code (netFind self) network_id = Return (net :: rest) ->
  net_retrieve_stations net = Return all ->
  outcome (_getStationObj self network_id station_id datetime) =
  outcome (use_first_and_raise_or_warn
             (filter (station_matches station_id (formatFissures datetime))
                     all) "station").
Proof.
  intros N S. unfold _getStationObj, call. rewrite N.
  destruct rest; cbn; rewrite S; cbn;
    now destruct (use_first_and_raise_or_warn _ "station").
Qed.

End Selection.

Lemma use_first_cons {A} (x : A) (r : list A) (type_str : string) :
  use_first_and_raise_or_warn (x :: r) type_str
  = (ambiguity r type_str, Return x).
Proof. now destruct r. Qed.

Lemma bind_returned {Ev A B} (l : list Ev) (a : A) (k : A -> M Ev B) :
  bind (l, Return a) k = (l ++ events (k a), outcome (k a)).
Proof. simpl. now destruct (k a). Qed.

Lemma call_returned {A} (ev : Event) (a : A) :
  call ev (Return a) = ([ev], Return a).
Proof. reflexivity. Qed.

Ltac select_call :=
  rewrite call_returned, bind_returned;
  cbv beta zeta; cbn [events outcome fst snd].

Ltac select_first :=
  rewrite use_first_cons, bind_returned;
  cbv beta zeta; cbn [events outcome fst snd].

Ltac select_end :=
  simpl; rewrite <- ?app_assoc, ?app_nil_r; simpl; reflexivity.

(** C5.  Every selection of the station lookup and of the response lookup
    follows the first-or-warn-or-raise rule.  With the remote calls answered,
    each lookup goes through its selections in order (the networks found and
    the stations kept for the station lookup; the networks found, the
    stations and the channels of the requested code, the stages of the
    response, the POLEZERO filters of the first stage and its normalizations
    for the response lookup): at the first selection without candidate it
    ends with NotFoundError for that selection, no later remote call being
    made; a selection with one candidate goes on with it and emits nothing; a
    selection with several candidates emits one warning and goes on with the
    first candidate of the list as received. *)
Theorem first_or_warn_or_raise {L : Collaborators} :
  (forall (A B : Type) (type_str : string) (k : A -> M Event B),
      bind (use_first_and_raise_or_warn [] type_str) k
      = ([], Raise (NotFoundError type_str)) /\
      (forall x, bind (use_first_and_raise_or_warn [x] type_str) k = k x) /\
      (forall x y r,
          bind (use_first_and_raise_or_warn (x :: y :: r) type_str) k
          = (emit (ev_warn "FissuresWarning" type_str) ;;; k x)))
  /\
  (forall (self : Client) (network_id station_id : string)
          (datetime : UTCDateTime) nets,
      nf_retrieve_by_code (netFind self) network_id = Return nets ->
      match nets with
      | [] =>
          _getStationObj self network_id station_id datetime =
          ([ev_retrieve_by_code network_id], Raise (NotFoundError "network"))
      | net :: nets' =>
          forall all,
            net_retrieve_stations net = Return all ->
            match filter (station_matches station_id
                            (formatFissures datetime)) all with
            | [] =>
                _getStationObj self network_id station_id datetime =
                ([ev_retrieve_by_code network_id]
                   ++ ambiguity nets' "network"
                   ++ [ev_retrieve_stations (net_label net)],
                 Raise (NotFoundError "station"))
            | sta :: stas =>
                _getStationObj self network_id station_id datetime =
                ([ev_retrieve_by_code network_id]
                   ++ ambiguity nets' "network"
                   ++ [ev_retrieve_stations (net_label net)]
                   ++ ambiguity stas "station",
                 Return sta)
            end
      end)
  /\
  (forall (self : Client) (network_id station_id cha : string)
          (datetime : UTCDateTime) nets,
      PyStr.contains PyStr.star cha = false ->
      nf_retrieve_by_code (netFind self) network_id = Return nets ->
      let lookup := getPAZ self network_id station_id cha datetime in
      match nets with
      | [] =>
          lookup =
          ([ev_retrieve_by_code network_id], Raise (NotFoundError "network"))
      | net :: nets' =>
        let ev1 := [ev_retrieve_by_code network_id]
                     ++ ambiguity nets' "network"
                     ++ [ev_retrieve_stations (net_label net)] in
        forall all,
        net_retrieve_stations net = Return all ->
        match filter (fun s => String.eqb (station_code (sta_id s))
                                          station_id) all with
        | [] => lookup = (ev1, Raise (NotFoundError "station"))
        | sta :: stas =>
          let ev2 := ev1 ++ ambiguity stas "station"
                       ++ [ev_retrieve_for_station (net_label net)
                             (sta_id sta)] in
          forall chas,
          net_retrieve_for_station net (sta_id sta) = Return chas ->
          match filter (fun c => String.eqb (channel_code (cha_id c)) cha)
                       chas with
          | [] => lookup = (ev2, Raise (NotFoundError "channel"))
          | ch :: chs =>
            let ev3 := ev2 ++ ambiguity chs "channel"
                         ++ [ev_retrieve_instrumentation (net_label net)
                               (cha_id ch) (utcdatetime2Fissures datetime)] in
            forall inst,
            net_retrieve_instrumentation net (cha_id ch)
              (utcdatetime2Fissures datetime) = Return inst ->
            match stages (the_response inst) with
            | [] => lookup = (ev3, Raise (NotFoundError "response stage"))
            | stage :: stgs =>
              let ev4 := ev3 ++ ambiguity stgs "response stage" in
              match filter (fun f => String.eqb (_d f) "POLEZERO")
                           (filters stage) with
              | [] => lookup = (ev4, Raise (NotFoundError "polezerofilter"))
              | flt :: flts =>
                let ev5 := ev4 ++ ambiguity flts "polezerofilter" in
                forall p,
                poleZeroFilter2PAZ (_v flt) = Return p ->
                match the_normalization stage with
                | [] => lookup = (ev5, Raise (NotFoundError "normalization"))
                | norm :: norms =>
                    lookup =
                    (ev5 ++ ambiguity norms "normalization",
                     Return
                       (mkPAZ (poles p) (zeros p)
                          (Some (ao_normalization_factor norm))
                          (Some (sensitivity_factor
                                   (the_sensitivity (the_response inst))))))
                end
              end
            end
          end
        end
      end).
Proof.
  split; [| split].
  - intros A B type_str k. split; [| split].
    + exact (use_first_step [] type_str k).
    + intros x. exact (use_first_step [x] type_str k).
    + intros x y r. exact (use_first_step (x :: y :: r) type_str k).
  - intros self network_id station_id datetime nets N.
    unfold _getStationObj. rewrite N. select_call.
    destruct nets as [| net nets']; [reflexivity |].
    intros all S. select_first. rewrite S. select_call.
    destruct (filter _ all) as [| sta stas]; [select_end |].
    rewrite use_first_cons. reflexivity.
  - intros self network_id station_id cha datetime nets W N lookup.
    unfold lookup, getPAZ. rewrite W, N. select_call.
    destruct nets as [| net nets']; [reflexivity |].
    intros all S. select_first. rewrite S. select_call.
    destruct (filter _ all) as [| sta stas]; [select_end |].
    intros chas C. select_first. rewrite C. select_call.
    destruct (filter _ chas) as [| ch chs]; [select_end |].
    intros inst I. select_first. rewrite I. select_call.
    destruct (stages (the_response inst)) as [| stage stgs]; [select_end |].
    select_first.
    destruct (filter _ (filters stage)) as [| flt flts]; [select_end |].
    intros p P. cbn [map]. select_first.
    rewrite P. change (lift (Return p)) with (@nil Event, Return p).
    rewrite bind_returned.
    cbv beta zeta; cbn [events outcome fst snd].
    destruct (the_normalization stage) as [| norm norms];
      [destruct flts; select_end |].
    select_first. destruct flts; select_end.
Qed.

Lemma first_or_warn_or_raise_station :
  @_getStationObj Fixture.toy (Fixture.client []) "XX" "APE" Fixture.t0
  = ([ev_retrieve_by_code "XX"], Raise (NotFoundError "network")) /\
  @_getStationObj Fixture.toy (Fixture.client []) "GE" "NONE" Fixture.t0
  = ([ev_retrieve_by_code "GE"; ev_retrieve_stations "GE"],
     Raise (NotFoundError "station")) /\
  @_getStationObj Fixture.toy (Fixture.client []) "GE" "APE" Fixture.t0
  = ([ev_retrieve_by_code "GE"; ev_retrieve_stations "GE";
      ev_warn "FissuresWarning" "station"],
     Return Fixture.APE_now) /\
  @getPAZ Fixture.toy (Fixture.client []) "XX" "APE" "BHZ" Fixture.t0
  = ([ev_retrieve_by_code "XX"], Raise (NotFoundError "network")) /\
  @getPAZ Fixture.toy (Fixture.client []) "GE" "APE" "EHZ" Fixture.t0
  = ([ev_retrieve_by_code "GE"; ev_retrieve_stations "GE";
      ev_warn "FissuresWarning" "station";
      ev_retrieve_for_station "GE" (sta_id Fixture.APE_old)],
     Raise (NotFoundError "channel")) /\
  @getPAZ Fixture.toy (Fixture.client []) "GE" "APE" "BHZ" Fixture.t0
  = ([ev_retrieve_by_code "GE"; ev_retrieve_stations "GE";
      ev_warn "FissuresWarning" "station";
      ev_retrieve_for_station "GE" (sta_id Fixture.APE_old);
      ev_retrieve_instrumentation "GE" (Fixture.cha "BHZ")
        (mkFTime Fixture.t0)],
     Return (mkPAZ (poles Fixture.paz0) (zeros Fixture.paz0)
               (Some (6 # 1)%Q) (Some (5 # 1)%Q))) /\
  @getPAZ Fixture.toy
    (Fixture.client_inst Fixture.instrumentation_later_polezero)
    "GE" "APE" "BHZ" Fixture.t0
  = ([ev_retrieve_by_code "GE"; ev_retrieve_stations "GE";
      ev_retrieve_for_station "GE" (sta_id Fixture.APE_now);
      ev_retrieve_instrumentation "GE" (Fixture.cha "BHZ")
        (mkFTime Fixture.t0);
      ev_warn "FissuresWarning" "response stage"],
     Raise (NotFoundError "polezerofilter")).
Proof.
  pose proof (@first_or_warn_or_raise Fixture.toy) as (_ & S & P).
  pose (stations := [Fixture.APE_old; Fixture.APE_now; Fixture.KARP;
                     Fixture.APE_dup]).
  pose (channels := [mkChannel (Fixture.cha "BHZ");
                     mkChannel (Fixture.cha "SHZ")]).
  refine (conj _ (conj _ (conj _ (conj _ (conj _ (conj _ _)))))).
  - exact (S (Fixture.client []) "XX" "APE" Fixture.t0 [] eq_refl).
  - exact (S (Fixture.client []) "GE" "NONE" Fixture.t0 [Fixture.net_GE]
             eq_refl stations eq_refl).
  - exact (S (Fixture.client []) "GE" "APE" Fixture.t0 [Fixture.net_GE]
             eq_refl stations eq_refl).
  - exact (P (Fixture.client []) "XX" "APE" "BHZ" Fixture.t0 []
             eq_refl eq_refl).
  - exact (P (Fixture.client []) "GE" "APE" "EHZ" Fixture.t0
             [Fixture.net_GE] eq_refl eq_refl stations eq_refl
             channels eq_refl).
  - exact (P (Fixture.client []) "GE" "APE" "BHZ" Fixture.t0
             [Fixture.net_GE] eq_refl eq_refl stations eq_refl
             channels eq_refl Fixture.instrumentation eq_refl
             Fixture.paz0 eq_refl).
  - exact (P (Fixture.client_inst Fixture.instrumentation_later_polezero)
             "GE" "APE" "BHZ" Fixture.t0
             [Fixture.net_inst Fixture.instrumentation_later_polezero]
             eq_refl eq_refl [Fixture.APE_now] eq_refl
             [mkChannel (Fixture.cha "BHZ")] eq_refl
             Fixture.instrumentation_later_polezero eq_refl).
Defined.

(** ** The station lookup *)

(** C6.  In the station lookup, once the network is resolved, the candidate
    list handed to the selection is the list of the network's stations, in
    their order, restricted to those whose station code is the requested one
    and whose effective time contains the instant strictly: start < at_time
    and at_time < end, compared as the code compares them, on the Fissures
    date-time strings.  A station one of whose endpoints is the instant is
    not a candidate. *)
Theorem station_candidates {L : Collaborators}
  (self : Client) (network_id station_id : string) (datetime : UTCDateTime)
  (net : NetworkAccess PoleZeroFilter)
  (rest : list (NetworkAccess PoleZeroFilter)) (all : list Station) :
  nf_retrieve_by_code (netFind self) network_id = Return (net :: rest) ->
  net_retrieve_stations net = Return all ->
  let at_time := formatFissures datetime in
  let candidates := filter (station_matches station_id at_time) all in
  outcome (_getStationObj self network_id station_id datetime)
  = outcome (use_first_and_raise_or_warn candidates "station")
  /\
  (forall sta,
      In sta candidates <->
      In sta all /\
      station_code (sta_id sta) = station_id /\
      PyStr.lt (date_time (start_time (effective_time sta))) at_time = true /\
      PyStr.lt at_time (date_time (end_time (effective_time sta))) = true)
  /\
  (forall sta,
      date_time (start_time (effective_time sta)) = at_time \/
      date_time (end_time (effective_time sta)) = at_time ->
      ~ In sta candidates).
Proof.
  intros N S at_time candidates.
  assert (C : forall sta,
             In sta candidates <->
             In sta all /\
             station_code (sta_id sta) = station_id /\
             PyStr.lt (date_time (start_time (effective_time sta))) at_time
             = true /\
             PyStr.lt at_time (date_time (end_time (effective_time sta)))
             = true).
  { intros sta. unfold candidates. rewrite filter_In.
    unfold station_matches. rewrite !andb_true_iff, String.eqb_eq.
    intuition congruence. }
  split; [| split; [exact C |]].
  - now apply _getStationObj_resolved with net rest.
  - intros sta E H. apply C in H as (_ & _ & H1 & H2).
    destruct E as [E | E]; rewrite E in *.
    + rewrite ltb_irrefl in H1. discriminate.
    + rewrite ltb_irrefl in H2. discriminate.
Qed.

Lemma station_candidates_APE :
  let self := Fixture.client [] in
  let all := [Fixture.APE_old; Fixture.APE_now; Fixture.KARP;
              Fixture.APE_dup] in
  let candidates := filter (station_matches "APE" Fixture.t0) all in
  candidates = [Fixture.APE_now; Fixture.APE_dup] /\
  outcome (@_getStationObj Fixture.toy self "GE" "APE" Fixture.t0)
  = outcome (use_first_and_raise_or_warn candidates "station") /\
  ~ In Fixture.APE_old candidates.
Proof.
  intros self all candidates.
  pose proof (@station_candidates Fixture.toy self "GE" "APE" Fixture.t0
                Fixture.net_GE [] all eq_refl eq_refl) as (O & _ & X).
  split; [reflexivity |]. split; [exact O |].
  apply X. right. reflexivity.
Defined.

(** ** Construction *)

(** C8 on the code.  With the naming service reached, a network finder
    whose resolution raises ends the construction with AttributeError, with
    the data center resolved as well as with its resolution raising too: the
    attribute read by the final test was never assigned.  Only the converse
    case, the data center alone failing, gives the warning and a constructed
    client. *)
Theorem init_network_finder_unresolved {L : Collaborators}
  (sys_byteorder name_service : string) (e e' : Exn)
  (nf : NetworkFinder PoleZeroFilter) (dc : DataCenter) :
  __init__ sys_byteorder name_service
    (mkNameService (Return tt) (Raise e) (Return (Some dc)))
  = ([ev_warn "FissuresWarning" "Initialization of NetworkFinder failed."],
     Raise (AttributeError "'Client' object has no attribute 'netFind'"))
  /\
  __init__ sys_byteorder name_service
    (mkNameService (Return tt) (Raise e) (Raise e'))
  = ([ev_warn "FissuresWarning" "Initialization of NetworkFinder failed.";
      ev_warn "FissuresWarning"
        "Initialization of seismogram DataCenter failed."],
     Raise (AttributeError "'Client' object has no attribute 'netFind'"))
  /\
  __init__ sys_byteorder name_service
    (mkNameService (Return tt) (Return (Some nf)) (Raise e'))
  = ([ev_warn "FissuresWarning"
        "Initialization of seismogram DataCenter failed."],
     Return (mkClientObject (String.eqb sys_byteorder "little")
               (attr_set (Some nf)) attr_unset)).
Proof. repeat split. Qed.

(** * Further properties of the client *)

(** ** Composing names *)

Lemma py_split_cons (sep : ascii) (s : string) :
  exists w ws, py_split sep s = w :: ws.
Proof.
  induction s as [| a s (w & ws & IH)]; simpl.
  - now eexists _, _.
  - destruct (Ascii.eqb a sep); [now eexists _, _ |].
    rewrite IH. now eexists _, _.
Qed.

Lemma py_split_app (sep : ascii) (a b : string) :
  py_split sep (append a (String sep b)) = py_split sep a ++ py_split sep b.
Proof.
  induction a as [| c a IH]; simpl.
  - now rewrite Ascii.eqb_refl.
  - destruct (Ascii.eqb c sep); [now rewrite IH |].
    rewrite IH. now destruct (py_split_cons sep a) as (w & ws & ->).
Qed.

Lemma py_split_no_sep (sep : ascii) (s : string) :
  Forall (fun w => PyStr.contains sep w = false) (py_split sep s).
Proof.
  induction s as [| a s IH]; simpl.
  - now repeat constructor.
  - destruct (Ascii.eqb a sep) eqn:E; [now constructor |].
    destruct (py_split sep s) as [| w ws].
    + constructor; [simpl; now rewrite E | constructor].
    + inversion IH; subst. constructor; trivial. simpl. now rewrite E.
Qed.

Lemma compose_dns_filter (ids : list string) (dns : list NameComponent) :
  compose_dns ids dns =
  dns ++ map (fun id => mkNameComponent id "dns")
             (filter (fun id => negb (String.eqb id EmptyString)) ids).
Proof.
  revert dns. induction ids as [| id ids IH]; intros dns; simpl.
  - now rewrite app_nil_r.
  - destruct (String.eqb id EmptyString); simpl; rewrite IH; trivial.
    now rewrite <- app_assoc.
Qed.

(** X1.  The name composed is the component Fissures, one [dns] component
    for each piece of the path between slashes that is not empty, in order,
    then the interface and the object component; no [dns] component has an
    empty id or a slash in it. *)
Theorem composeName_shape (dc : string * string) (interface : string) :
  exists ids,
    ids = filter (fun id => negb (String.eqb id EmptyString))
                 (py_split "/" (fst dc)) /\
    _composeName dc interface =
    mkNameComponent "Fissures" "dns"
      :: map (fun id => mkNameComponent id "dns") ids
      ++ [mkNameComponent interface "interface";
          mkNameComponent (snd dc) "object_FVer1.0"] /\
    Forall (fun id => id <> EmptyString /\ PyStr.contains "/" id = false) ids /\
    List.length (_composeName dc interface) = (3 + List.length ids)%nat.
Proof.
  eexists. split; [reflexivity |].
  assert (E : _composeName dc interface =
              mkNameComponent "Fissures" "dns"
                :: map (fun id => mkNameComponent id "dns")
                     (filter (fun id => negb (String.eqb id EmptyString))
                             (py_split "/" (fst dc)))
                ++ [mkNameComponent interface "interface";
                    mkNameComponent (snd dc) "object_FVer1.0"]).
  { unfold _composeName. now rewrite compose_dns_filter. }
  split; [exact E |]. split.
  - apply Forall_forall. intros id H. apply filter_In in H as [H N].
    split.
    + intros ->. discriminate.
    + pose proof (py_split_no_sep "/" (fst dc)) as F.
      rewrite Forall_forall in F. now apply F.
  - rewrite E. simpl. rewrite length_app, length_map. simpl. lia.
Qed.

(** X2.  Slashes that delimit no piece do not count: a slash in front of
    the path, a slash at its end and a doubled slash inside leave the
    composed name unchanged. *)
Theorem composeName_redundant_slashes (p p1 p2 name interface : string) :
  _composeName (String "/" p, name) interface
  = _composeName (p, name) interface /\
  _composeName (append p "/", name) interface
  = _composeName (p, name) interface /\
  _composeName (append p1 (String "/" (String "/" p2)), name) interface
  = _composeName (append p1 (String "/" p2), name) interface.
Proof.
  unfold _composeName. cbn [fst snd]. rewrite !compose_dns_filter.
  split; [reflexivity |]. split.
  - rewrite py_split_app. rewrite filter_app. simpl. now rewrite app_nil_r.
  - rewrite !py_split_app, !filter_app. reflexivity.
Qed.

(** ** Construction, continued *)

(** X3.  A client that is constructed has its network finder attribute
    assigned, and at least one of its two handles is a remote object: the
    network finder, or else (the finder having been narrowed to [None]) the
    data center.  Its byte-order flag tells whether the host is
    little-endian. *)
Theorem init_constructed_has_handle {L : Collaborators}
  (sys_byteorder name_service : string) (ns : NameService)
  (obj : ClientObject) :
  outcome (__init__ sys_byteorder name_service ns) = Return obj ->
  obj_byteorder obj = String.eqb sys_byteorder "little" /\
  ((exists nf, resolve_netFind ns = Return (Some nf) /\
               obj_netFind obj = attr_set (Some nf))
   \/
   (resolve_netFind ns = Return None /\
    obj_netFind obj = attr_set None /\
    exists dc, resolve_seisDC ns = Return (Some dc) /\
               obj_seisDC obj = attr_set (Some dc))).
Proof.
  destruct ns as [[u | e] [[nf |] | e1] [[dc |] | e2]]; simpl;
    intros H; try discriminate H; injection H as <-; simpl;
    (split; [reflexivity |]);
    solve [left; eexists; split; reflexivity
          | right; repeat split; eexists; split; reflexivity].
Qed.

Lemma init_constructed_has_handle_data_center_only :
  let dc := mkDataCenter (fun _ => Return []) in
  let ns := @mkNameService Fixture.toy (Return tt) (Return None)
              (Return (Some dc)) in
  let obj := @mkClientObject Fixture.toy true (attr_set None)
               (attr_set (Some dc)) in
  obj_byteorder obj = String.eqb "little" "little" /\
  ((exists nf, resolve_netFind ns = Return (Some nf) /\
               obj_netFind obj = attr_set (Some nf))
   \/
   (resolve_netFind ns = Return None /\
    obj_netFind obj = attr_set None /\
    exists dc', resolve_seisDC ns = Return (Some dc') /\
                obj_seisDC obj = attr_set (Some dc'))).
Proof.
  intros dc ns obj.
  apply (@init_constructed_has_handle Fixture.toy "little"
           "dmc.iris.washington.edu:6371" ns obj).
  reflexivity.
Defined.

(** X4.  The exception for a client without any service (lines 125-127) is
    raised exactly when the naming service is reached and both narrowings
    answer [None] without raising; a resolution that raises never leads to
    it. *)
Theorem init_neither_service {L : Collaborators}
  (sys_byteorder name_service : string) (ns : NameService) :
  outcome (__init__ sys_byteorder name_service ns)
  = Raise (FissuresException
             "Neither NetworkFinder nor DataCenter could be initialized.")
  <->
  (exists u, narrow_root ns = Return u) /\
  resolve_netFind ns = Return None /\
  resolve_seisDC ns = Return None.
Proof.
  destruct ns as [[u | e] [[nf |] | e1] [[dc |] | e2]]; simpl; split;
    try discriminate;
    try (intros (_ & H1 & H2); discriminate);
    try (intros ([u' H0] & _); discriminate).
  - intros _. repeat split. now exists u.
  - reflexivity.
Qed.

Lemma init_neither_service_both_none :
  outcome (@__init__ Fixture.toy "little" "localhost:6371"
             (mkNameService (Return tt) (Return None) (Return None)))
  = Raise (FissuresException
             "Neither NetworkFinder nor DataCenter could be initialized.").
Proof.
  apply (proj2 (@init_neither_service Fixture.toy "little" "localhost:6371"
                  (mkNameService (Return tt) (Return None) (Return None)))).
  repeat split. now exists tt.
Defined.

(** X5.  When the naming service is reached, the construction emits one
    warning for each resolution that raises, the network finder's first, and
    nothing else, whether it then completes or not; when narrowing the root
    context raises, nothing is emitted and the exception names the naming
    service. *)
Theorem init_warnings {L : Collaborators}
  (sys_byteorder name_service : string) (ns : NameService) :
  ((exists u, narrow_root ns = Return u) ->
   events (__init__ sys_byteorder name_service ns) =
   match resolve_netFind ns with
   | Raise _ => [ev_warn "FissuresWarning"
                   "Initialization of NetworkFinder failed."]
   | Return _ => []
   end ++
   match resolve_seisDC ns with
   | Raise _ => [ev_warn "FissuresWarning"
                   "Initialization of seismogram DataCenter failed."]
   | Return _ => []
   end)
  /\
  (forall e, narrow_root ns = Raise e ->
             __init__ sys_byteorder name_service ns =
             ([], Raise (FissuresException
                           (append "Could not connect to " name_service)))).
Proof.
  split.
  - intros [u H].
    destruct ns as [[u' | e] [[nf |] | e1] [[dc |] | e2]]; simpl in *;
      trivial; discriminate.
  - intros e H. unfold __init__. now rewrite H.
Qed.

Lemma init_warnings_both_raise :
  events (@__init__ Fixture.toy "big" "localhost:6371"
            (mkNameService (Return tt) (Raise (Foreign "NotFound"))
               (Raise (Foreign "NotFound")))) =
  [ev_warn "FissuresWarning" "Initialization of NetworkFinder failed.";
   ev_warn "FissuresWarning"
     "Initialization of seismogram DataCenter failed."]
  /\
  @__init__ Fixture.toy "big" "localhost:6371"
    (mkNameService (Raise (Foreign "TRANSIENT")) (Return None) (Return None))
  = ([], Raise (FissuresException "Could not connect to localhost:6371")).
Proof.
  split.
  - apply (proj1 (@init_warnings Fixture.toy "big" "localhost:6371"
                    (mkNameService (Return tt) (Raise (Foreign "NotFound"))
                       (Raise (Foreign "NotFound"))))).
    now exists tt.
  - apply (proj2 (@init_warnings Fixture.toy "big" "localhost:6371"
                    (mkNameService (Raise (Foreign "TRANSIENT")) (Return None)
                       (Return None))) (Foreign "TRANSIENT")).
    reflexivity.
Defined.

(** ** Coordinates *)

(** X6.  Once the station is selected, [getCoordinates] emits, after the
    events of the selection, one warning if the elevation unit is not named
    METER and nothing otherwise; it returns the elevation value as it is,
    whatever the unit, with the latitude and longitude of the station's
    location when the location type is GEOGRAPHIC, and raises
    NotImplementedError, returning no coordinates, for any other type.  A
    selection that raises ends the call with its exception. *)
Theorem getCoordinates_of_station {L : Collaborators}
  (self : Client) (network_id station_id : string) (datetime : UTCDateTime) :
  (forall sta,
      outcome (_getStationObj self network_id station_id datetime)
      = Return sta ->
      let loc := my_location sta in
      let unit := unit_name (the_units (elevation loc)) in
      events (getCoordinates self network_id station_id datetime) =
      events (_getStationObj self network_id station_id datetime) ++
      (if String.eqb unit "METER" then []
       else [ev_warn "UserWarning"
               (append "Elevation not meter but " (append unit "."))])
      /\
      (loc_type loc = "GEOGRAPHIC" ->
       outcome (getCoordinates self network_id station_id datetime) =
       Return (mkCoordinates (value (elevation loc)) (latitude loc)
                 (longitude loc)))
      /\
      (loc_type loc <> "GEOGRAPHIC" ->
       exists msg,
         outcome (getCoordinates self network_id station_id datetime) =
         Raise (NotImplementedError msg)))
  /\
  (forall e,
      outcome (_getStationObj self network_id station_id datetime) = Raise e ->
      getCoordinates self network_id station_id datetime =
      (events (_getStationObj self network_id station_id datetime), Raise e)).
Proof.
  unfold getCoordinates.
  destruct (_getStationObj self network_id station_id datetime)
    as [l [sta' | e']]; simpl; split.
  - intros sta H. injection H as <-.
    destruct (String.eqb (unit_name _) "METER"); simpl;
      (split; [| split]).
    + destruct (String.eqb (loc_type _) "GEOGRAPHIC"); simpl; trivial.
    + intros T. now rewrite T.
    + intros T. apply String.eqb_neq in T. rewrite T. simpl. now eexists.
    + destruct (String.eqb (loc_type _) "GEOGRAPHIC"); simpl; trivial.
    + intros T. now rewrite T.
    + intros T. apply String.eqb_neq in T. rewrite T. simpl. now eexists.
  - discriminate.
  - discriminate.
  - intros e H. now injection H as <-.
Qed.

Lemma getCoordinates_of_station_fixture :
  outcome (@getCoordinates Fixture.toy
             (Fixture.client_with [Fixture.APE_feet] []) "GE" "APE" Fixture.t0)
  = Return (mkCoordinates (1640 # 1) (49 # 1) (11 # 1)) /\
  (exists msg,
      outcome (@getCoordinates Fixture.toy
                 (Fixture.client_with [Fixture.APE_cartesian] [])
                 "GE" "APE" Fixture.t0)
      = Raise (NotImplementedError msg)) /\
  @getCoordinates Fixture.toy (Fixture.client []) "XX" "APE" Fixture.t0 =
  ([ev_retrieve_by_code "XX"], Raise (NotFoundError "network")).
Proof.
  split; [| split].
  - apply (proj1 (@getCoordinates_of_station Fixture.toy
                    (Fixture.client_with [Fixture.APE_feet] [])
                    "GE" "APE" Fixture.t0) Fixture.APE_feet eq_refl).
    reflexivity.
  - apply (proj1 (@getCoordinates_of_station Fixture.toy
                    (Fixture.client_with [Fixture.APE_cartesian] [])
                    "GE" "APE" Fixture.t0) Fixture.APE_cartesian eq_refl).
    discriminate.
  - apply (proj2 (@getCoordinates_of_station Fixture.toy
                    (Fixture.client []) "XX" "APE" Fixture.t0)
             (NotFoundError "network")).
    reflexivity.
Defined.

(** ** Stripping and the location code *)

Lemma rstrip_empty (s : string) :
  PyStr.rstrip s = EmptyString <-> all_space s = true.
Proof.
  induction s as [| a s IH]; simpl; [tauto |].
  destruct (PyStr.rstrip s) as [| b r].
  - destruct (PyStr.is_space a); simpl.
    + split; intros _; trivial. now apply IH.
    + split; discriminate.
  - split; [discriminate |]. intros H. apply andb_true_iff in H as [_ H].
    now apply IH in H.
Qed.

Lemma all_space_lstrip (s : string) :
  all_space (PyStr.lstrip s) = all_space s.
Proof.
  induction s as [| a s IH]; simpl; trivial.
  destruct (PyStr.is_space a) eqn:E; simpl; [exact IH | now rewrite E].
Qed.

Lemma strip_empty (s : string) :
  PyStr.strip s = EmptyString <-> all_space s = true.
Proof.
  unfold PyStr.strip. rewrite rstrip_empty. now rewrite all_space_lstrip.
Qed.

Lemma rstrip_idempotent (s : string) :
  PyStr.rstrip (PyStr.rstrip s) = PyStr.rstrip s.
Proof.
  induction s as [| a s IH]; simpl; trivial.
  destruct (PyStr.rstrip s) as [| b r] eqn:R.
  - destruct (PyStr.is_space a) eqn:E; simpl; trivial. now rewrite E.
  - cbn [PyStr.rstrip]. cbn [PyStr.rstrip] in IH. now rewrite IH.
Qed.

Lemma lstrip_head (s : string) :
  match PyStr.lstrip s with
  | EmptyString => True
  | String a _ => PyStr.is_space a = false
  end.
Proof.
  induction s as [| a s IH]; simpl; trivial.
  now destruct (PyStr.is_space a) eqn:E.
Qed.

Lemma lstrip_rstrip_head (a : ascii) (s : string) :
  PyStr.is_space a = false ->
  PyStr.lstrip (PyStr.rstrip (String a s)) = PyStr.rstrip (String a s).
Proof.
  intros E. cbn [PyStr.rstrip].
  destruct (PyStr.rstrip s); rewrite ?E; simpl; now rewrite E.
Qed.

Lemma strip_idempotent (s : string) :
  PyStr.strip (PyStr.strip s) = PyStr.strip s.
Proof.
  unfold PyStr.strip. pose proof (lstrip_head s) as H.
  destruct (PyStr.lstrip s) as [| a t]; trivial.
  rewrite lstrip_rstrip_head by exact H. apply rstrip_idempotent.
Qed.

(** X7.  A location code made of whitespace only, the empty one included,
    is requested as two spaces: the network is asked for the channels of
    location "  ", and the call is the one made for two spaces.  Any other
    location code is handed to the network as it was given, not stripped.
    The third part gives the whole call: the network lookup, the warning on
    several networks, then the one channel request with the location code
    so chosen, whose answer or exception is the call's. *)
Theorem getChannelObj_location {L : Collaborators}
  (self : Client) (network_id station_id location_id channel_id : string) :
  (all_space location_id = true ->
   _getChannelObj self network_id station_id location_id channel_id =
   _getChannelObj self network_id station_id "  " channel_id)
  /\
  (all_space location_id = false ->
   forall net rest,
     nf_retrieve_by_code (netFind self) network_id = Return (net :: rest) ->
     outcome (_getChannelObj self network_id station_id location_id
                channel_id)
     = net_retrieve_channels_by_code net station_id location_id channel_id /\
     In (ev_retrieve_channels_by_code (net_label net) station_id location_id
           channel_id)
        (events (_getChannelObj self network_id station_id location_id
                   channel_id)))
  /\
  (forall net rest,
     nf_retrieve_by_code (netFind self) network_id = Return (net :: rest) ->
     let requested := if all_space location_id then "  " else location_id in
     _getChannelObj self network_id station_id location_id channel_id
     = ([ev_retrieve_by_code network_id]
          ++ ambiguity rest "network"
          ++ [ev_retrieve_channels_by_code (net_label net) station_id
                requested channel_id],
        net_retrieve_channels_by_code net station_id requested channel_id)).
Proof.
  split; [| split].
  - intros H. apply strip_empty in H. unfold _getChannelObj.
    rewrite H. reflexivity.
  - intros H net rest N.
    assert (S : String.eqb (PyStr.strip location_id) EmptyString = false).
    { apply String.eqb_neq. intros E. apply strip_empty in E. congruence. }
    unfold _getChannelObj, call. rewrite N, S.
    destruct (net_retrieve_channels_by_code net station_id location_id
                channel_id) eqn:R;
      destruct rest; cbn; rewrite R; cbn; split; trivial; tauto.
  - intros net rest N requested. unfold requested, _getChannelObj.
    rewrite N.
    assert (S : String.eqb (PyStr.strip location_id) EmptyString
                = all_space location_id).
    { destruct (all_space location_id) eqn:H.
      - apply String.eqb_eq. now apply strip_empty.
      - apply String.eqb_neq. intros E. apply strip_empty in E.
        congruence. }
    rewrite S. select_call. select_first.
    destruct (all_space location_id); destruct rest; reflexivity.
Qed.

Lemma getChannelObj_location_fixture :
  let self := Fixture.client [] in
  @_getChannelObj Fixture.toy self "GE" "APE" " " "SHZ" =
  @_getChannelObj Fixture.toy self "GE" "APE" "  " "SHZ"
  /\
  In (ev_retrieve_channels_by_code "GE" "APE" "00 " "SHZ")
     (events (@_getChannelObj Fixture.toy self "GE" "APE" "00 " "SHZ"))
  /\
  @_getChannelObj Fixture.toy self "GE" "APE" " " "SHZ"
  = ([ev_retrieve_by_code "GE";
      ev_retrieve_channels_by_code "GE" "APE" "  " "SHZ"],
     Return [mkChannel (Fixture.cha "SHZ")])
  /\
  @_getChannelObj Fixture.toy self "GE" "APE" EmptyString "SHZ"
  = ([ev_retrieve_by_code "GE";
      ev_retrieve_channels_by_code "GE" "APE" "  " "SHZ"],
     Return [mkChannel (Fixture.cha "SHZ")])
  /\
  @_getChannelObj Fixture.toy self "GE" "APE" " 00" "SHZ"
  = ([ev_retrieve_by_code "GE";
      ev_retrieve_channels_by_code "GE" "APE" " 00" "SHZ"],
     Return [mkChannel (Fixture.cha "SHZ")]).
Proof.
  intros self.
  refine (conj _ (conj _ (conj _ (conj _ _)))).
  - apply (proj1 (@getChannelObj_location Fixture.toy self "GE" "APE" " "
                    "SHZ")).
    reflexivity.
  - apply (proj2 (proj1 (proj2 (@getChannelObj_location Fixture.toy self
                                  "GE" "APE" "00 " "SHZ"))
                    eq_refl Fixture.net_GE [] eq_refl)).
  - exact (proj2 (proj2 (@getChannelObj_location Fixture.toy self "GE" "APE"
                           " " "SHZ")) Fixture.net_GE [] eq_refl).
  - exact (proj2 (proj2 (@getChannelObj_location Fixture.toy self "GE" "APE"
                           EmptyString "SHZ")) Fixture.net_GE [] eq_refl).
  - exact (proj2 (proj2 (@getChannelObj_location Fixture.toy self "GE" "APE"
                           " 00" "SHZ")) Fixture.net_GE [] eq_refl).
Defined.

(** ** Traces *)

(** X8.  A trace that is built carries what the seismogram says, not what
    was requested: its sample count, its station, network and channel codes,
    its start time, and its site code stripped, so that the location code has
    no whitespace around it.  It has no response or coordinates yet, and it
    has passed the verification. *)
Theorem make_trace_stats {L : Collaborators}
  (self : Client) (sei : Seismogram) (tr : Trace UTCDateTime pyfloat) :
  outcome (make_trace self sei) = Return tr ->
  starttime (stats tr) = UTCDateTime_of (date_time (begin_time sei)) /\
  npts (stats tr) = num_points sei /\
  station (stats tr) = cha_station_code (channel_id sei) /\
  network (stats tr) = network_code (network_id (channel_id sei)) /\
  channel (stats tr) = channel_code (channel_id sei) /\
  location (stats tr) = PyStr.strip (site_code (channel_id sei)) /\
  PyStr.strip (location (stats tr)) = location (stats tr) /\
  paz (stats tr) = None /\
  coordinates (stats tr) = None /\
  Trace_verify tr = Return tt.
Proof.
  intros H.
  apply make_trace_returns in H as (_ & sr & ds & _ & _ & _ & E & V).
  rewrite E in *. cbn. repeat split; trivial. apply strip_idempotent.
Qed.

Lemma make_trace_stats_fixture :
  let tr := mkTrace (mkStats Fixture.t0 3 (Fixture.b64_of_Z 3) "APE" "GE" "SHZ"
                       EmptyString None None) [1; 2; 3] in
  outcome (@make_trace Fixture.toy (Fixture.client []) Fixture.sei_ok)
  = Return tr /\
  location (stats tr) = PyStr.strip "  " /\
  @Trace_verify Fixture.toy tr = Return tt.
Proof.
  intros tr.
  pose proof (@make_trace_stats Fixture.toy (Fixture.client [])
                Fixture.sei_ok tr eq_refl)
    as (_ & _ & _ & _ & _ & E & _ & _ & _ & V).
  split; [reflexivity |]. split; [exact E | exact V].
Defined.

(** X9.  A seismogram that declares samples and holds no chunk does not
    give an empty trace: concatenating nothing raises ValueError, and a call
    that retrieved such a seismogram returns no stream. *)
Theorem getWaveform_no_chunks {L : Collaborators}
  (self : Client) (network_id station_id location_id channel_id : string)
  (start_datetime end_datetime : UTCDateTime) (getPAZ_ getCoordinates_ : bool)
  (cha : string) (channels : list Channel) (seis : list Seismogram)
  (sei : Seismogram) (sr : pyfloat) :
  In cha (requested_channels channel_id) ->
  outcome (_getChannelObj self network_id station_id location_id cha)
  = Return channels ->
  outcome (_getSeisObj self channels start_datetime end_datetime)
  = Return seis ->
  In sei seis ->
  num_points sei <> 0 ->
  the_unit_base (the_units (interval (sampling_info sei))) = "SECOND" ->
  calc_sampling_rate sei = Return sr ->
  encoded_values sei = [] ->
  make_trace self sei
  = raise (ValueError "need at least one array to concatenate") /\
  fails (getWaveform self network_id station_id location_id channel_id
           start_datetime end_datetime getPAZ_ getCoordinates_).
Proof.
  intros R C S I N U Q E.
  assert (T : make_trace self sei
              = raise (ValueError "need at least one array to concatenate")).
  { unfold make_trace. rewrite U, Q, E. reflexivity. }
  split; [exact T |].
  apply retrieved_segment_fails with cha channels seis sei; trivial.
  rewrite T. now eexists.
Qed.

Lemma getWaveform_no_chunks_fixture :
  @make_trace Fixture.toy (Fixture.client [Fixture.sei_no_chunks])
    Fixture.sei_no_chunks
  = raise (ValueError "need at least one array to concatenate") /\
  fails (@getWaveform Fixture.toy (Fixture.client [Fixture.sei_no_chunks])
           "GE" "APE" EmptyString "SHZ" Fixture.t0 Fixture.t1 false false).
Proof.
  apply (@getWaveform_no_chunks Fixture.toy
           (Fixture.client [Fixture.sei_no_chunks])
           "GE" "APE" EmptyString "SHZ" Fixture.t0 Fixture.t1 false false
           "SHZ" [mkChannel (Fixture.cha "SHZ")] [Fixture.sei_no_chunks]
           Fixture.sei_no_chunks (Fixture.b64_of_Z 2));
    try reflexivity.
  - left. reflexivity.
  - left. reflexivity.
  - discriminate.
Defined.

(** ** Metadata on the records *)

Section Metadata.

Context {L : Collaborators}.

Variables (self : Client) (network_id station_id location_id : string).
Variables (start_datetime end_datetime : UTCDateTime).

Local Abbreviation direct cha gp gc :=
  (getWaveform_direct self network_id station_id location_id cha
     start_datetime end_datetime gp gc).

Local Abbreviation whole cha gp gc :=
  (getWaveform self network_id station_id location_id cha
     start_datetime end_datetime gp gc).

(** The check of lines 247-254 on the channel code before the response is
    looked up. *)
Local Abbreviation band_check cha :=
  (if PyStr.contains PyStr.star cha then
     if PyStr.len cha <? 3 then
       raise (FissuresException "Cannot fetch PAZ with wildcarded band codes.")
     else
       warn_fissures (append "Wildcard in channel_id, trying to look up Z "
                             "components PAZ information")
   else ret tt).

Lemma direct_with_coordinates (cha : string) (gp : bool) :
  direct cha gp true =
  (st <- direct cha gp false ;;
   c <- getCoordinates self network_id station_id start_datetime ;;
   ret (map (set_coordinates c) st)).
Proof.
  unfold getWaveform_direct.
  rewrite !bind_assoc. apply bind_ext; intros channels.
  rewrite !bind_assoc. apply bind_ext; intros seis.
  rewrite !bind_assoc. apply bind_ext; intros st0.
  rewrite !bind_assoc. apply bind_ext; intros st1.
  rewrite !bind_assoc. apply bind_ext; intros st2.
  repeat (progress rewrite ?bind_ret_l, ?bind_ret_r, ?bind_assoc).
  reflexivity.
Qed.

Lemma direct_with_paz (cha : string) :
  direct cha true false =
  (st <- direct cha false false ;;
   band_check cha ;;;
   data <- getPAZ self network_id station_id "BHZ" start_datetime ;;
   ret (map (set_paz data) st)).
Proof.
  unfold getWaveform_direct.
  rewrite !bind_assoc. apply bind_ext; intros channels.
  rewrite !bind_assoc. apply bind_ext; intros seis.
  rewrite !bind_assoc. apply bind_ext; intros st0.
  rewrite !bind_assoc. apply bind_ext; intros st1.
  repeat (progress rewrite ?bind_ret_l, ?bind_ret_r, ?bind_assoc).
  apply bind_ext; intros [].
  apply bind_ext; intros data.
  repeat (progress rewrite ?bind_ret_l, ?bind_ret_r, ?bind_assoc).
  reflexivity.
Qed.

End Metadata.

Lemma Forall_events_bind {Ev A B} (P : Ev -> Prop) (m : M Ev A)
  (f : A -> M Ev B) :
  Forall P (events m) -> (forall a, Forall P (events (f a))) ->
  Forall P (events (bind m f)).
Proof.
  intros Hm Hf. rewrite events_bind.
  destruct (outcome m) as [a | e]; trivial.
  apply Forall_app. split; trivial.
Qed.

Lemma set_paz_coordinates {T R} (p : PAZ) (tr : Trace T R) :
  coordinates (stats (set_paz p tr)) = coordinates (stats tr).
Proof. reflexivity. Qed.

(** X11.  With [getCoordinates=True] and a channel code requested as it
    is, the call is the same call without that flag followed by one
    coordinate lookup for the network, the station and the start time, whose
    result is put on every record; so a response lookup, when asked for,
    comes before the coordinate lookup, and every record of a returned stream
    carries the coordinates of that one lookup. *)
Theorem getWaveform_coordinates_lookup {L : Collaborators}
  (self : Client) (network_id station_id location_id cha : string)
  (start_datetime end_datetime : UTCDateTime) (getPAZ_ : bool) :
  component_wildcard cha = false ->
  getWaveform self network_id station_id location_id cha
    start_datetime end_datetime getPAZ_ true =
  (st <- getWaveform self network_id station_id location_id cha
           start_datetime end_datetime getPAZ_ false ;;
   c <- getCoordinates self network_id station_id start_datetime ;;
   ret (map (set_coordinates c) st))
  /\
  (forall st,
      outcome (getWaveform self network_id station_id location_id cha
                 start_datetime end_datetime getPAZ_ true) = Return st ->
      exists c,
        outcome (getCoordinates self network_id station_id start_datetime)
        = Return c /\
        Forall (fun tr => coordinates (stats tr) = Some c) st).
Proof.
  intros W.
  rewrite !getWaveform_not_intercepted by trivial.
  rewrite direct_with_coordinates. split; [reflexivity |].
  intros st. rewrite outcome_bind.
  destruct (outcome (getWaveform_direct _ _ _ _ _ _ _ _ false))
    as [st0 | e]; [| discriminate].
  rewrite outcome_bind.
  destruct (outcome (getCoordinates _ _ _ _)) as [c | e]; [| discriminate].
  intros R. injection R as <-. exists c. split; trivial.
  induction st0; simpl; constructor; trivial.
Qed.

Lemma getWaveform_coordinates_lookup_SHZ :
  let self := Fixture.client [Fixture.sei_ok] in
  let c0 := mkCoordinates (499 # 1) (49 # 1) (11 # 1) in
  let st := [mkTrace (mkStats Fixture.t0 3 (Fixture.b64_of_Z 3) "APE" "GE" "SHZ"
                        EmptyString None (Some c0)) [1; 2; 3]] in
  exists c,
    outcome (@getCoordinates Fixture.toy self "GE" "APE" Fixture.t0)
    = Return c /\
    Forall (fun tr => coordinates (stats tr) = Some c) st.
Proof.
  intros self c0 st.
  apply (proj2 (@getWaveform_coordinates_lookup Fixture.toy self "GE" "APE"
                  EmptyString "SHZ" Fixture.t0 Fixture.t1 false eq_refl) st).
  reflexivity.
Defined.

(** X12.  With [getPAZ=True] and a channel code that holds a wildcard
    without being expanded: a code shorter than three characters is rejected
    with FissuresException, but only after the retrieval, whose remote calls
    have been made and whose failure comes first; a longer code gets a
    warning and the response of the default channel code. *)
Theorem getWaveform_paz_wildcard_band {L : Collaborators}
  (self : Client) (network_id station_id location_id cha : string)
  (start_datetime end_datetime : UTCDateTime) :
  component_wildcard cha = false ->
  PyStr.contains PyStr.star cha = true ->
  (PyStr.len cha < 3 ->
   forall getCoordinates_,
     outcome (getWaveform self network_id station_id location_id cha
                start_datetime end_datetime true getCoordinates_) =
     match outcome (getWaveform self network_id station_id location_id cha
                      start_datetime end_datetime false false) with
     | Return _ =>
         Raise (FissuresException
                  "Cannot fetch PAZ with wildcarded band codes.")
     | Raise e => Raise e
     end /\
     events (getWaveform self network_id station_id location_id cha
               start_datetime end_datetime true getCoordinates_) =
     events (getWaveform self network_id station_id location_id cha
               start_datetime end_datetime false false))
  /\
  (3 <= PyStr.len cha ->
   getWaveform self network_id station_id location_id cha
     start_datetime end_datetime true false =
   (st <- getWaveform self network_id station_id location_id cha
            start_datetime end_datetime false false ;;
    warn_fissures (append "Wildcard in channel_id, trying to look up Z "
                          "components PAZ information") ;;;
    data <- getPAZ self network_id station_id "BHZ" start_datetime ;;
    ret (map (set_paz data) st))).
Proof.
  intros W S. split.
  - intros Hlen gc. apply Z.ltb_lt in Hlen.
    rewrite !getWaveform_not_intercepted by trivial.
    assert (E : getWaveform_direct self network_id station_id location_id cha
                  start_datetime end_datetime true false =
                (st <- getWaveform_direct self network_id station_id
                         location_id cha start_datetime end_datetime
                         false false ;;
                 raise (FissuresException
                          "Cannot fetch PAZ with wildcarded band codes."))).
    { rewrite direct_with_paz, S, Hlen. apply bind_ext. intros st.
      reflexivity. }
    destruct gc.
    + rewrite direct_with_coordinates, E, bind_assoc.
      rewrite outcome_bind, events_bind.
      destruct (getWaveform_direct _ _ _ _ _ _ _ false false)
        as [l [st | e]]; simpl; split; trivial. apply app_nil_r.
    + rewrite E. rewrite outcome_bind, events_bind.
      destruct (getWaveform_direct _ _ _ _ _ _ _ false false)
        as [l [st | e]]; simpl; split; trivial. apply app_nil_r.
  - intros Hlen. apply Z.ltb_ge in Hlen.
    rewrite !getWaveform_not_intercepted by trivial.
    now rewrite direct_with_paz, S, Hlen.
Qed.

Lemma getWaveform_paz_wildcard_band_fixture :
  let self := Fixture.client [Fixture.sei_ok] in
  outcome (@getWaveform Fixture.toy self "GE" "APE" EmptyString "S*"
             Fixture.t0 Fixture.t1 true true)
  = Raise (FissuresException "Cannot fetch PAZ with wildcarded band codes.")
  /\
  @getWaveform Fixture.toy self "GE" "APE" EmptyString "*HZ"
    Fixture.t0 Fixture.t1 true false =
  (st <- @getWaveform Fixture.toy self "GE" "APE" EmptyString "*HZ"
           Fixture.t0 Fixture.t1 false false ;;
   warn_fissures (append "Wildcard in channel_id, trying to look up Z "
                         "components PAZ information") ;;;
   data <- @getPAZ Fixture.toy self "GE" "APE" "BHZ" Fixture.t0 ;;
   ret (map (set_paz data) st)).
Proof.
  intros self. split.
  - apply (proj1 (@getWaveform_paz_wildcard_band Fixture.toy self "GE" "APE"
                    EmptyString "S*" Fixture.t0 Fixture.t1 eq_refl eq_refl)
             ltac:(reflexivity) true).
  - apply (proj2 (@getWaveform_paz_wildcard_band Fixture.toy self "GE" "APE"
                    EmptyString "*HZ" Fixture.t0 Fixture.t1 eq_refl eq_refl)).
    discriminate.
Defined.

(** X13.  An expanded call with [getPAZ=True] looks the response up three
    times, once after each of the three retrievals and before the next one,
    each time for the default channel code; the records of each component
    carry the result of their own lookup. *)
Theorem getWaveform_expansion_paz {L : Collaborators}
  (self : Client) (network_id station_id location_id : string)
  (start_datetime end_datetime : UTCDateTime) (a b : ascii) :
  a <> PyStr.star -> b <> PyStr.star ->
  let fetch c :=
    getWaveform self network_id station_id location_id (PyStr.code3 a b c)
      start_datetime end_datetime false false in
  let lookup := getPAZ self network_id station_id "BHZ" start_datetime in
  getWaveform self network_id station_id location_id
    (PyStr.code3 a b PyStr.star) start_datetime end_datetime true false =
  (rz <- fetch "Z"%char ;; dz <- lookup ;;
   rn <- fetch "N"%char ;; dn <- lookup ;;
   re <- fetch "E"%char ;; de <- lookup ;;
   ret (map (set_paz dz) rz ++ map (set_paz dn) rn ++ map (set_paz de) re)).
Proof.
  intros Ha Hb fetch lookup. unfold fetch.
  assert (N : forall c, c <> PyStr.star ->
                        PyStr.contains PyStr.star (PyStr.code3 a b c) = false).
  { intros c Hc. simpl. apply Ascii.eqb_neq in Ha, Hb, Hc.
    now rewrite Ha, Hb, Hc. }
  rewrite getWaveform_intercepted by trivial.
  rewrite !getWaveform_not_intercepted
    by (apply expanded_not_wildcard; trivial; discriminate).
  rewrite !direct_with_paz.
  rewrite !N by discriminate.
  rewrite !bind_assoc. apply bind_ext; intros rz.
  rewrite bind_ret_l, bind_assoc. apply bind_ext; intros dz.
  rewrite bind_ret_l, !bind_assoc. apply bind_ext; intros rn.
  rewrite bind_ret_l, bind_assoc. apply bind_ext; intros dn.
  rewrite bind_ret_l, !bind_assoc. apply bind_ext; intros re.
  rewrite bind_ret_l, bind_assoc. apply bind_ext; intros de.
  now rewrite bind_ret_l.
Qed.

Lemma getWaveform_expansion_paz_SH :
  let self := Fixture.client [Fixture.sei_ok] in
  let fetch cha :=
    @getWaveform Fixture.toy self "GE" "APE" EmptyString cha
      Fixture.t0 Fixture.t1 false false in
  let lookup := @getPAZ Fixture.toy self "GE" "APE" "BHZ" Fixture.t0 in
  @getWaveform Fixture.toy self "GE" "APE" EmptyString "SH*"
    Fixture.t0 Fixture.t1 true false =
  (rz <- fetch "SHZ" ;; dz <- lookup ;;
   rn <- fetch "SHN" ;; dn <- lookup ;;
   re <- fetch "SHE" ;; de <- lookup ;;
   ret (map (set_paz dz) rz ++ map (set_paz dn) rn ++ map (set_paz de) re)).
Proof.
  intros self fetch lookup.
  apply (@getWaveform_expansion_paz Fixture.toy self "GE" "APE" EmptyString
           Fixture.t0 Fixture.t1 "S"%char "H"%char); discriminate.
Defined.

(** ** What the retrieval calls *)

Section RetrievalEvents.

Context {L : Collaborators}.

Variables (self : Client) (network_id station_id location_id : string).
Variables (start_datetime end_datetime : UTCDateTime).

Lemma use_first_network_events {A} (nets : list A) :
  Forall (fun ev => retrieval_event ev = true)
         (events (use_first_and_raise_or_warn nets "network")).
Proof.
  destruct nets as [| x [| y r]]; simpl; repeat constructor.
Qed.

Lemma direct_retrieval_events (cha : string) :
  Forall (fun ev => retrieval_event ev = true)
         (events (getWaveform_direct self network_id station_id location_id
                    cha start_datetime end_datetime false false)).
Proof.
  unfold getWaveform_direct, _getChannelObj, _getSeisObj, call.
  repeat (apply Forall_events_bind; [| intros ?]);
    try apply use_first_network_events;
    try (rewrite build_stream_events);
    simpl; repeat constructor.
Qed.

End RetrievalEvents.

(** X14.  With both flags off the call talks to the remote side only to
    find the network, to ask it for the channels and to request the
    seismograms (a warning on several networks apart): stations and
    instrumentation are never asked for, and assembling, decoding, verifying
    and trimming make no remote call. *)
Theorem getWaveform_retrieval_events {L : Collaborators}
  (self : Client) (network_id station_id location_id cha : string)
  (start_datetime end_datetime : UTCDateTime) :
  Forall (fun ev => retrieval_event ev = true)
         (events (getWaveform self network_id station_id location_id cha
                    start_datetime end_datetime false false))
  /\
  (forall net sta t,
      ~ In (ev_retrieve_stations net)
           (events (getWaveform self network_id station_id location_id cha
                      start_datetime end_datetime false false)) /\
      ~ In (ev_retrieve_for_station net sta)
           (events (getWaveform self network_id station_id location_id cha
                      start_datetime end_datetime false false)) /\
      forall c,
        ~ In (ev_retrieve_instrumentation net c t)
             (events (getWaveform self network_id station_id location_id cha
                        start_datetime end_datetime false false))).
Proof.
  assert (F : Forall (fun ev => retrieval_event ev = true)
                (events (getWaveform self network_id station_id location_id
                           cha start_datetime end_datetime false false))).
  { destruct (component_wildcard cha) eqn:W.
    - apply component_wildcard_shape in W as (a & b & Ha & Hb & ->).
      fold (PyStr.code3 a b PyStr.star).
      rewrite getWaveform_intercepted by trivial.
      apply Forall_events_bind; [apply direct_retrieval_events | intros rz].
      apply Forall_events_bind; [apply direct_retrieval_events | intros rn].
      apply Forall_events_bind; [apply direct_retrieval_events | intros re].
      constructor.
    - rewrite getWaveform_not_intercepted by trivial.
      apply direct_retrieval_events. }
  split; [exact F |].
  rewrite Forall_forall in F.
  intros net sta t. split; [| split].
  - intros H. apply F in H. discriminate H.
  - intros H. apply F in H. discriminate H.
  - intros c H. apply F in H. discriminate H.
Qed.

(** ** The response lookup *)

Lemma outcome_call {A} (ev : Event) (o : Outcome A) : outcome (call ev o) = o.
Proof. now destruct o. Qed.

Lemma events_call {A} (ev : Event) (o : Outcome A) : events (call ev o) = [ev].
Proof. now destruct o. Qed.

Lemma outcome_use_first_cons {A} (x : A) (r : list A) (type_str : string) :
  outcome (use_first_and_raise_or_warn (x :: r) type_str) = Return x.
Proof. now destruct r. Qed.

Ltac lookup_step H :=
  rewrite outcome_bind;
  first [rewrite outcome_call | rewrite outcome_use_first_cons | idtac];
  try rewrite H; cbv beta iota.

(** X15.  When every selection of the response lookup finds a candidate,
    the result has the poles and zeros converted from the first POLEZERO
    filter of the first stage of the response, the normalization factor of
    that stage's first normalization as gain, and the sensitivity factor of
    the whole response as sensitivity.  The station is the first one of the
    network with the requested code, whatever its effective time, and the
    channel the first one of that station with the requested code. *)
Theorem getPAZ_resolved {L : Collaborators}
  (self : Client) (network_id station_id cha : string)
  (datetime : UTCDateTime)
  net nets all sta stas chas ch chs inst stage stgs flt flts p norm norms :
  PyStr.contains PyStr.star cha = false ->
  nf_retrieve_by_code (netFind self) network_id = Return (net :: nets) ->
  net_retrieve_stations net = Return all ->
  filter (fun s => String.eqb (station_code (sta_id s)) station_id) all
  = sta :: stas ->
  net_retrieve_for_station net (sta_id sta) = Return chas ->
  filter (fun c => String.eqb (channel_code (cha_id c)) cha) chas
  = ch :: chs ->
  net_retrieve_instrumentation net (cha_id ch)
    (utcdatetime2Fissures datetime) = Return inst ->
  stages (the_response inst) = stage :: stgs ->
  filter (fun f => String.eqb (_d f) "POLEZERO") (filters stage)
  = flt :: flts ->
  poleZeroFilter2PAZ (_v flt) = Return p ->
  the_normalization stage = norm :: norms ->
  outcome (getPAZ self network_id station_id cha datetime) =
  Return (mkPAZ (poles p) (zeros p)
            (Some (ao_normalization_factor norm))
            (Some (sensitivity_factor (the_sensitivity (the_response inst))))).
Proof.
  intros W N S FS C FC I G FF P NO. unfold getPAZ. rewrite W.
  lookup_step N. lookup_step N. lookup_step S.
  rewrite FS. lookup_step FS. lookup_step C.
  rewrite FC. lookup_step FC. lookup_step I.
  rewrite G. lookup_step G.
  rewrite FF. cbn [map]. lookup_step FF.
  rewrite outcome_bind. cbn [lift outcome snd]. rewrite P. cbv beta iota.
  rewrite NO. lookup_step NO. reflexivity.
Qed.

Lemma getPAZ_resolved_fixture :
  outcome (@getPAZ Fixture.toy (Fixture.client []) "GE" "APE" "BHZ"
             Fixture.t1) =
  Return (mkPAZ [(-1 # 1, 1 # 1)%Q] [(0 # 1, 0 # 1)%Q] (Some (6 # 1))
            (Some (5 # 1))).
Proof.
  apply (@getPAZ_resolved Fixture.toy (Fixture.client []) "GE" "APE" "BHZ"
           Fixture.t1 Fixture.net_GE []
           [Fixture.APE_old; Fixture.APE_now; Fixture.KARP; Fixture.APE_dup]
           Fixture.APE_old [Fixture.APE_now; Fixture.APE_dup]
           [mkChannel (Fixture.cha "BHZ"); mkChannel (Fixture.cha "SHZ")]
           (mkChannel (Fixture.cha "BHZ")) []
           Fixture.instrumentation
           (mkStage [mkFilter "POLEZERO" Fixture.paz0]
              [mkNormalization (6 # 1)]) []
           (mkFilter "POLEZERO" Fixture.paz0) [] Fixture.paz0
           (mkNormalization (6 # 1)) []);
    reflexivity.
Defined.

(** X16.  The response lookup stops at the first selection without
    candidate.  Without a station of the requested code it ends with
    NotFoundError for the station after asking the network for its stations,
    and the channels are not asked for; without a channel of the requested
    code it ends with NotFoundError for the channel after asking for the
    channels of the selected station, and the instrumentation is not asked
    for. *)
Theorem getPAZ_missing_station_or_channel {L : Collaborators}
  (self : Client) (network_id station_id cha : string)
  (datetime : UTCDateTime) net nets all :
  PyStr.contains PyStr.star cha = false ->
  nf_retrieve_by_code (netFind self) network_id = Return (net :: nets) ->
  net_retrieve_stations net = Return all ->
  (filter (fun s => String.eqb (station_code (sta_id s)) station_id) all = [] ->
   getPAZ self network_id station_id cha datetime =
   (ev_retrieve_by_code network_id :: ambiguity nets "network"
      ++ [ev_retrieve_stations (net_label net)],
    Raise (NotFoundError "station")))
  /\
  (forall sta stas chas,
      filter (fun s => String.eqb (station_code (sta_id s)) station_id) all
      = sta :: stas ->
      net_retrieve_for_station net (sta_id sta) = Return chas ->
      filter (fun c => String.eqb (channel_code (cha_id c)) cha) chas = [] ->
      getPAZ self network_id station_id cha datetime =
      (ev_retrieve_by_code network_id :: ambiguity nets "network"
         ++ [ev_retrieve_stations (net_label net)]
         ++ ambiguity stas "station"
         ++ [ev_retrieve_for_station (net_label net) (sta_id sta)],
       Raise (NotFoundError "channel"))).
Proof.
  intros W N S. split.
  - intros FS. unfold getPAZ, call. rewrite W, N.
    destruct nets; cbn; rewrite S; cbn; rewrite FS; reflexivity.
  - intros sta stas chas FS C FC. unfold getPAZ, call. rewrite W, N.
    destruct nets; cbn; rewrite S; cbn; rewrite FS;
      destruct stas; cbn; rewrite C; cbn; rewrite FC; reflexivity.
Qed.

Lemma getPAZ_missing_station_or_channel_fixture :
  @getPAZ Fixture.toy (Fixture.client []) "GE" "ZUGS" "BHZ" Fixture.t0 =
  ([ev_retrieve_by_code "GE"; ev_retrieve_stations "GE"],
   Raise (NotFoundError "station"))
  /\
  @getPAZ Fixture.toy (Fixture.client []) "GE" "KARP" "LHZ" Fixture.t0 =
  ([ev_retrieve_by_code "GE"; ev_retrieve_stations "GE";
    ev_retrieve_for_station "GE" (sta_id Fixture.KARP)],
   Raise (NotFoundError "channel")).
Proof.
  split.
  - apply (proj1 (@getPAZ_missing_station_or_channel Fixture.toy
                    (Fixture.client []) "GE" "ZUGS" "BHZ" Fixture.t0
                    Fixture.net_GE []
                    [Fixture.APE_old; Fixture.APE_now; Fixture.KARP;
                     Fixture.APE_dup] eq_refl eq_refl eq_refl)).
    reflexivity.
  - apply (proj2 (@getPAZ_missing_station_or_channel Fixture.toy
                    (Fixture.client []) "GE" "KARP" "LHZ" Fixture.t0
                    Fixture.net_GE []
                    [Fixture.APE_old; Fixture.APE_now; Fixture.KARP;
                     Fixture.APE_dup] eq_refl eq_refl eq_refl)
             Fixture.KARP []
             [mkChannel (Fixture.cha "BHZ"); mkChannel (Fixture.cha "SHZ")]);
      reflexivity.
Defined.

(** X17.  Only the first stage of the response is consulted: when it holds
    no POLEZERO filter the lookup ends with NotFoundError for the filter,
    whatever the later stages hold, and a response without stages ends with
    NotFoundError for the stage. *)
Theorem getPAZ_first_stage_only {L : Collaborators}
  (self : Client) (network_id station_id cha : string)
  (datetime : UTCDateTime) net nets all sta stas chas ch chs inst :
  PyStr.contains PyStr.star cha = false ->
  nf_retrieve_by_code (netFind self) network_id = Return (net :: nets) ->
  net_retrieve_stations net = Return all ->
  filter (fun s => String.eqb (station_code (sta_id s)) station_id) all
  = sta :: stas ->
  net_retrieve_for_station net (sta_id sta) = Return chas ->
  filter (fun c => String.eqb (channel_code (cha_id c)) cha) chas
  = ch :: chs ->
  net_retrieve_instrumentation net (cha_id ch)
    (utcdatetime2Fissures datetime) = Return inst ->
  (stages (the_response inst) = [] ->
   outcome (getPAZ self network_id station_id cha datetime)
   = Raise (NotFoundError "response stage"))
  /\
  (forall stage stgs,
      stages (the_response inst) = stage :: stgs ->
      filter (fun f => String.eqb (_d f) "POLEZERO") (filters stage) = [] ->
      outcome (getPAZ self network_id station_id cha datetime)
      = Raise (NotFoundError "polezerofilter")).
Proof.
  intros W N S FS C FC I.
  split.
  - intros G. unfold getPAZ. rewrite W.
    lookup_step N. lookup_step N. lookup_step S.
    rewrite FS. lookup_step FS. lookup_step C.
    rewrite FC. lookup_step FC. lookup_step I.
    rewrite G. reflexivity.
  - intros stage stgs G FF. unfold getPAZ. rewrite W.
    lookup_step N. lookup_step N. lookup_step S.
    rewrite FS. lookup_step FS. lookup_step C.
    rewrite FC. lookup_step FC. lookup_step I.
    rewrite G. lookup_step G.
    rewrite FF. reflexivity.
Qed.

Lemma getPAZ_first_stage_only_fixture :
  outcome (@getPAZ Fixture.toy
             (Fixture.client_inst Fixture.instrumentation_later_polezero)
             "GE" "APE" "BHZ" Fixture.t0)
  = Raise (NotFoundError "polezerofilter")
  /\
  outcome (@getPAZ Fixture.toy
             (Fixture.client_inst
                (mkInstrumentation (mkResponse [] (mkSensitivity (5 # 1)))))
             "GE" "APE" "BHZ" Fixture.t0)
  = Raise (NotFoundError "response stage").
Proof.
  split.
  - apply (proj2 (@getPAZ_first_stage_only Fixture.toy
                    (Fixture.client_inst Fixture.instrumentation_later_polezero)
                    "GE" "APE" "BHZ" Fixture.t0
                    (Fixture.net_inst Fixture.instrumentation_later_polezero)
                    [] [Fixture.APE_now] Fixture.APE_now []
                    [mkChannel (Fixture.cha "BHZ")]
                    (mkChannel (Fixture.cha "BHZ")) []
                    Fixture.instrumentation_later_polezero
                    eq_refl eq_refl eq_refl eq_refl eq_refl eq_refl eq_refl)
             (mkStage [mkFilter "COEFFICIENT" Fixture.paz0]
                [mkNormalization (6 # 1)])
             [mkStage [mkFilter "POLEZERO" Fixture.paz0]
                [mkNormalization (6 # 1)]]);
      reflexivity.
  - apply (proj1 (@getPAZ_first_stage_only Fixture.toy
                    (Fixture.client_inst
                       (mkInstrumentation
                          (mkResponse [] (mkSensitivity (5 # 1)))))
                    "GE" "APE" "BHZ" Fixture.t0
                    (Fixture.net_inst
                       (mkInstrumentation
                          (mkResponse [] (mkSensitivity (5 # 1)))))
                    [] [Fixture.APE_now] Fixture.APE_now []
                    [mkChannel (Fixture.cha "BHZ")]
                    (mkChannel (Fixture.cha "BHZ")) []
                    (mkInstrumentation (mkResponse [] (mkSensitivity (5 # 1))))
                    eq_refl eq_refl eq_refl eq_refl eq_refl eq_refl eq_refl)).
    reflexivity.
Defined.

(** ** Listings *)

Section Listings.

Context {L : Collaborators}.

Lemma outcome_emit_lift {Ev A} (ev : Ev) (o : Outcome A) :
  outcome (emit ev ;;; lift o) = o.
Proof. now destruct o. Qed.

Lemma events_emit_lift {Ev A} (ev : Ev) (o : Outcome A) :
  events (emit ev ;;; lift o) = [ev].
Proof. now destruct o. Qed.

Lemma station_loop_returns (nets : list (NetworkAccess PoleZeroFilter))
  (acc ids : list string) :
  outcome (station_loop nets acc) = Return ids <->
  exists sss,
    Forall2 (fun net sts => net_retrieve_stations net = Return sts) nets sss /\
    ids = acc ++ map (fun sta => station_code (sta_id sta)) (List.concat sss).
Proof.
  revert acc. induction nets as [| net nets IH]; intros acc.
  - simpl. split.
    + intros H. injection H as <-. exists []. split; [constructor |].
      now rewrite app_nil_r.
    + intros (sss & F & ->). inversion F. now rewrite app_nil_r.
  - cbn [station_loop]. rewrite outcome_bind, outcome_emit_lift.
    destruct (net_retrieve_stations net) as [sts | e] eqn:S.
    + rewrite IH. split.
      * intros (sss & F & ->). exists (sts :: sss).
        split; [now constructor |].
        simpl. now rewrite map_app, app_assoc.
      * intros (sss & F & ->). inversion F as [| ? sts' ? sss' S' F']; subst.
        rewrite S in S'. injection S' as <-. exists sss'. split; trivial.
        simpl. now rewrite map_app, app_assoc.
    + split; [discriminate |].
      intros (sss & F & _). inversion F; subst. congruence.
Qed.

Lemma station_loop_events (nets : list (NetworkAccess PoleZeroFilter))
  (acc ids : list string) :
  outcome (station_loop nets acc) = Return ids ->
  events (station_loop nets acc) =
  map (fun net => ce_event (ev_retrieve_stations (net_label net))) nets.
Proof.
  revert acc. induction nets as [| net nets IH]; intros acc; trivial.
  cbn [station_loop map].
  rewrite outcome_bind, events_bind, outcome_emit_lift, events_emit_lift.
  destruct (net_retrieve_stations net) as [sts | e]; [| discriminate].
  intros H. now rewrite (IH _ H).
Qed.

Lemma network_loop_returns (cat : Catalog)
  (nets : list (NetworkAccess PoleZeroFilter)) (acc ids : list string) :
  outcome (network_loop cat nets acc) = Return ids <->
  exists attrs,
    Forall2 (fun net a => cat_get_attributes cat net = Return a) nets attrs /\
    ids = acc ++ map (fun a => network_code (attr_id a)) attrs.
Proof.
  revert acc. induction nets as [| net nets IH]; intros acc.
  - simpl. split.
    + intros H. injection H as <-. exists []. split; [constructor |].
      now rewrite app_nil_r.
    + intros (attrs & F & ->). inversion F. now rewrite app_nil_r.
  - cbn [network_loop]. rewrite outcome_bind, outcome_emit_lift.
    destruct (cat_get_attributes cat net) as [a | e] eqn:S.
    + rewrite IH. split.
      * intros (attrs & F & ->). exists (a :: attrs).
        split; [now constructor |]. simpl. now rewrite <- app_assoc.
      * intros (attrs & F & ->).
        inversion F as [| ? a' ? attrs' S' F']; subst.
        rewrite S in S'. injection S' as <-. exists attrs'. split; trivial.
        simpl. now rewrite <- app_assoc.
    + split; [discriminate |].
      intros (attrs & F & _). inversion F; subst. congruence.
Qed.

(** What [_getStationObj] has found when it returns a station. *)
Lemma _getStationObj_returns (self : Client) (network_id station_id : string)
  (datetime : UTCDateTime) (sta : Station) :
  outcome (_getStationObj self network_id station_id datetime) = Return sta ->
  exists net rest all others,
    nf_retrieve_by_code (netFind self) network_id = Return (net :: rest) /\
    net_retrieve_stations net = Return all /\
    filter (station_matches station_id (formatFissures datetime)) all
    = sta :: others.
Proof.
  unfold _getStationObj. rewrite outcome_bind, outcome_call.
  destruct (nf_retrieve_by_code (netFind self) network_id)
    as [[| net rest] | e] eqn:N; [discriminate | | discriminate].
  rewrite outcome_bind, outcome_use_first_cons.
  rewrite outcome_bind, outcome_call.
  destruct (net_retrieve_stations net) as [all | e] eqn:S; [| discriminate].
  destruct (filter _ all) as [| sta' others] eqn:F; [discriminate |].
  rewrite outcome_use_first_cons. intros H. injection H as <-.
  now exists net, rest, all, others.
Qed.

End Listings.

(** X18.  [getStationIds] returns exactly when the networks are found
    (all of them without a network code, those of the code otherwise) and
    each of them answers with its stations; it then returns the station codes
    of all these networks, network after network, repeated codes included,
    after one request per network and without any warning.  No network gives
    the empty list, not an error. *)
Theorem getStationIds_returns {L : Collaborators}
  (self : Client) (cat : Catalog) (network_id : option string)
  (ids : list string) :
  (outcome (getStationIds self cat network_id) = Return ids <->
   exists nets sss,
     match network_id with
     | None => cat_retrieve_all cat
     | Some code => nf_retrieve_by_code (netFind self) code
     end = Return nets /\
     Forall2 (fun net sts => net_retrieve_stations net = Return sts) nets sss /\
     ids = map (fun sta => station_code (sta_id sta)) (List.concat sss))
  /\
  (outcome (getStationIds self cat network_id) = Return ids ->
   exists nets,
     match network_id with
     | None => cat_retrieve_all cat
     | Some code => nf_retrieve_by_code (netFind self) code
     end = Return nets /\
     events (getStationIds self cat network_id) =
     match network_id with
     | None => ce_retrieve_all
     | Some code => ce_event (ev_retrieve_by_code code)
     end :: map (fun net => ce_event (ev_retrieve_stations (net_label net)))
                nets).
Proof.
  unfold getStationIds. split.
  - rewrite outcome_bind.
    destruct network_id as [code |]; rewrite outcome_emit_lift.
    + destruct (nf_retrieve_by_code (netFind self) code) as [nets | e].
      * rewrite station_loop_returns. split.
        -- intros (sss & F & ->). now exists nets, sss.
        -- intros (nets' & sss & E & F & ->). injection E as <-.
           now exists sss.
      * split; [discriminate |]. intros (? & ? & E & _). discriminate.
    + destruct (cat_retrieve_all cat) as [nets | e].
      * rewrite station_loop_returns. split.
        -- intros (sss & F & ->). now exists nets, sss.
        -- intros (nets' & sss & E & F & ->). injection E as <-.
           now exists sss.
      * split; [discriminate |]. intros (? & ? & E & _). discriminate.
  - rewrite outcome_bind, events_bind.
    destruct network_id as [code |];
      rewrite outcome_emit_lift, events_emit_lift.
    + destruct (nf_retrieve_by_code (netFind self) code) as [nets | e];
        [| discriminate].
      intros H. exists nets. split; trivial.
      now rewrite (station_loop_events _ _ H).
    + destruct (cat_retrieve_all cat) as [nets | e]; [| discriminate].
      intros H. exists nets. split; trivial.
      now rewrite (station_loop_events _ _ H).
Qed.

Lemma getStationIds_returns_fixture :
  exists nets,
    nf_retrieve_by_code (netFind (Fixture.client [])) "GE" = Return nets /\
    events (@getStationIds Fixture.toy (Fixture.client []) Fixture.catalog
              (Some "GE")) =
    ce_event (ev_retrieve_by_code "GE")
      :: map (fun net => ce_event (ev_retrieve_stations (net_label net))) nets.
Proof.
  apply (proj2 (@getStationIds_returns Fixture.toy (Fixture.client [])
                  Fixture.catalog (Some "GE") ["APE"; "APE"; "KARP"; "APE"])).
  reflexivity.
Defined.

(** X19.  The listing covers the lookup: a station that the station lookup
    selects in a network has the requested code, and this code is in the
    list that [getStationIds] returns for that network code. *)
Theorem getStationIds_covers_lookup {L : Collaborators}
  (self : Client) (cat : Catalog) (network_id station_id : string)
  (datetime : UTCDateTime) (sta : Station) (ids : list string) :
  outcome (_getStationObj self network_id station_id datetime) = Return sta ->
  outcome (getStationIds self cat (Some network_id)) = Return ids ->
  station_code (sta_id sta) = station_id /\ In station_id ids.
Proof.
  intros H G.
  apply _getStationObj_returns in H as (net & rest & all & others & N & S & F).
  assert (I : In sta (filter (station_matches station_id
                                (formatFissures datetime)) all)).
  { rewrite F. now left. }
  apply filter_In in I as [I M]. unfold station_matches in M.
  apply andb_true_iff in M as [M _]. apply andb_true_iff in M as [M _].
  apply String.eqb_eq in M. split; [now symmetry |].
  unfold getStationIds in G.
  rewrite outcome_bind, outcome_emit_lift, N in G.
  apply station_loop_returns in G as (sss & F2 & ->).
  inversion F2 as [| ? sts ? sss' S' F']; subst.
  rewrite S in S'. injection S' as <-.
  simpl. rewrite map_app. apply in_or_app. left.
  try rewrite M. now apply (in_map (fun s => station_code (sta_id s))).
Qed.

Lemma getStationIds_covers_lookup_APE :
  station_code (sta_id Fixture.APE_now) = "APE" /\
  In "APE" ["APE"; "APE"; "KARP"; "APE"].
Proof.
  apply (@getStationIds_covers_lookup Fixture.toy (Fixture.client [])
           Fixture.catalog "GE" "APE" Fixture.t0 Fixture.APE_now
           ["APE"; "APE"; "KARP"; "APE"]); reflexivity.
Defined.

(** X20.  [getNetworkIds] returns exactly when all networks are retrieved
    and each of them answers with its attributes; it then returns one network
    code for each network, in the order retrieved. *)
Theorem getNetworkIds_returns {L : Collaborators}
  (self : Client) (cat : Catalog) (ids : list string) :
  outcome (getNetworkIds self cat) = Return ids <->
  exists nets attrs,
    cat_retrieve_all cat = Return nets /\
    Forall2 (fun net a => cat_get_attributes cat net = Return a) nets attrs /\
    ids = map (fun a => network_code (attr_id a)) attrs.
Proof.
  unfold getNetworkIds. rewrite outcome_bind, outcome_emit_lift.
  destruct (cat_retrieve_all cat) as [nets | e].
  - rewrite network_loop_returns. split.
    + intros (attrs & F & ->). now exists nets, attrs.
    + intros (nets' & attrs & E & F & ->). injection E as <-.
      now exists attrs.
  - split; [discriminate |]. intros (? & ? & E & _). discriminate.
Qed.

Lemma getNetworkIds_returns_fixture :
  outcome (@getNetworkIds Fixture.toy (Fixture.client []) Fixture.catalog)
  = Return ["GE"].
Proof.
  apply (proj2 (@getNetworkIds_returns Fixture.toy (Fixture.client [])
                  Fixture.catalog ["GE"])).
  exists [Fixture.net_GE], [mkNetworkAttr (mkNetworkId "GE")].
  split; [reflexivity |]. split; [| reflexivity].
  constructor; [reflexivity | constructor].
Defined.
